(** * thermodynamics-sdk: the entity, the First Law calculator and the JSON
    persistence functions of [thermodynamics_sdk/core.py], embedded in Rocq.

    Python values are a small inductive type, Python floats are IEEE 754
    binary64 numbers (the Standard Library's [SpecFloat] at precision 53),
    Python ints are [Z], exceptions are values of an error monad, the
    mutable entity is threaded through a state-and-error monad, and the
    operating system's [open] and the JSON library are parameters of the
    persistence functions. *)

From Stdlib Require Import ZArith Bool Lia Ascii.
From Stdlib Require Import Floats.SpecFloat.
From stdpp Require Import base strings list gmap.

Local Open Scope Z_scope.

Set Warnings "-register-all".

(** ** Binary64 floating point, as Python's [float] *)

Module Float64.

Definition prec : Z := 53.
Definition emax : Z := 1024.

Definition float : Type := spec_float.

Definition zero : float := S754_zero false.
(** [1.0], that is 2^52 * 2^-52. *)
Definition one : float := S754_finite false 4503599627370496 (-52).
Definition add : float -> float -> float := SFadd prec emax.
Definition sub : float -> float -> float := SFsub prec emax.
Definition eqb : float -> float -> bool := SFeqb.
Definition valid : float -> bool := valid_binary prec emax.

(** Nearest binary64 number to an integer, ties to even; an infinity when
    the integer is beyond the largest finite float. *)
Definition of_Z (z : Z) : float := binary_normalize prec emax z 0 false.

(** The value of a finite float counted in units of 2^-1074, the smallest
    positive binary64 number; every finite binary64 number is a whole
    number of them. *)
Definition units (f : float) : Z :=
  match f with
  | S754_finite s m e => cond_Zopp s (Zpos m) * 2 ^ (e + 1074)
  | _ => 0
  end.

Definition is_zero (f : float) : bool :=
  match f with S754_zero _ => true | _ => false end.

(** The exponent of a finite binary64 number is at least -1074. *)
Definition exponent_ok (f : float) : Prop :=
  match f with S754_finite _ _ e => -1074 <= e | _ => True end.

Definition is_nan (f : float) : bool :=
  match f with S754_nan => true | _ => false end.

Definition is_finite (f : float) : bool :=
  match f with S754_zero _ | S754_finite _ _ _ => true | _ => false end.

(** Exact comparison of a float with an integer (Python compares an int
    and a float by value, without rounding the int). *)
Definition eqb_Z (f : float) (z : Z) : bool :=
  match f with
  | S754_zero _ => z =? 0
  | S754_finite s m e =>
      let sm := cond_Zopp s (Zpos m) in
      if 0 <=? e then z =? sm * 2 ^ e else z * 2 ^ (- e) =? sm
  | _ => false
  end.

End Float64.

Definition float64 : Type := Float64.float.

(** ** Python values *)

Inductive PyVal : Type :=
| PyNone
| PyBool (b : bool)
| PyInt (z : Z)
| PyFloat (f : float64)
| PyStr (s : string)
| PyList (l : list PyVal)
| PyDict (d : list (string * PyVal)).

(** The entity: three attributes, dynamically typed as every Python
    attribute is. *)
Record ThermodynamicSystem : Type := mkSystem {
  _internal_energy : PyVal;
  _heat_added : PyVal;
  _work_done : PyVal
}.

(** What a caller can pass where the source says [Any]. *)
Inductive PyObject : Type :=
| Val (v : PyVal)
| Sys (s : ThermodynamicSystem).

Coercion Val : PyVal >-> PyObject.

(** [type(value).__name__] *)
Definition type_name (o : PyObject) : string :=
  match o with
  | Val PyNone => "NoneType"
  | Val (PyBool _) => "bool"
  | Val (PyInt _) => "int"
  | Val (PyFloat _) => "float"
  | Val (PyStr _) => "str"
  | Val (PyList _) => "list"
  | Val (PyDict _) => "dict"
  | Sys _ => "ThermodynamicSystem"
  end.

(** ** Exceptions and the error monad *)

(** The classes the code raises or names in an [except] clause, and those
    the interpreter and [open] raise under them.  [OSError] stands for
    itself and its subclasses other than [FileNotFoundError]; [OtherError]
    for a class that no [except] clause of the module names or inherits
    from ([MemoryError], [RecursionError], ...). *)
Inductive ExcClass : Type :=
| TypeError
| ValueError
| KeyError
| OverflowError
| OSError
| FileNotFoundError
| UnicodeDecodeError
| UnicodeEncodeError
| OtherError (name : string).

Inductive Exception : Type :=
| Exc (cls : ExcClass) (msg : string)
| JSONDecodeError (msg doc : string) (pos : Z).

Inductive result (A : Type) : Type :=
| Ok (a : A)
| Raise (e : Exception).

Arguments Ok {A} a.
Arguments Raise {A} e.

Definition bind {A B : Type} (r : result A) (k : A -> result B) : result B :=
  match r with
  | Ok a => k a
  | Raise e => Raise e
  end.

Declare Scope py_scope.
Delimit Scope py_scope with py.
Notation "'let!' x := c 'in' k" := (bind c (fun x => k))
  (at level 10, x name, c at level 100, k at level 200) : py_scope.
Notation "c ;; k" := (bind c (fun _ => k))
  (at level 100, k at level 200, right associativity) : py_scope.
Local Open Scope py_scope.

(** State and error: a computation on a mutable state [S] either returns or
    raises, and leaves a state behind in both cases. *)
Definition M (S A : Type) : Type := S -> result A * S.

Definition st_ret {S A : Type} (a : A) : M S A := fun s => (Ok a, s).
Definition st_raise {S A : Type} (e : Exception) : M S A :=
  fun s => (Raise e, s).
Definition st_lift {S A : Type} (r : result A) : M S A := fun s => (r, s).
Definition st_get {S : Type} : M S S := fun s => (Ok s, s).
Definition st_put {S : Type} (s' : S) : M S unit := fun _ => (Ok tt, s').
Definition st_bind {S A B : Type} (c : M S A) (k : A -> M S B) : M S B :=
  fun s => match c s with
           | (Ok a, s') => k a s'
           | (Raise e, s') => (Raise e, s')
           end.

Notation "'let*' x := c 'in' k" := (st_bind c (fun x => k))
  (at level 10, x name, c at level 100, k at level 200) : py_scope.

(** ** Numbers *)

Inductive Number : Type :=
| NInt (z : Z)
| NFloat (f : float64).

(** [bool] is a subclass of [int]: [True] is 1 and [False] is 0. *)
Definition as_number (o : PyObject) : option Number :=
  match o with
  | Val (PyBool b) => Some (NInt (if b then 1 else 0))
  | Val (PyInt z) => Some (NInt z)
  | Val (PyFloat f) => Some (NFloat f)
  | _ => None
  end.

(** [isinstance(value, (int, float))] *)
Definition isinstance_int_float (o : PyObject) : bool :=
  match as_number o with Some _ => true | None => false end.

(** An int, a bool or a finite float: a value that stands for a real
    number. *)
Definition is_real_number (o : PyObject) : bool :=
  match as_number o with
  | Some (NInt _) => true
  | Some (NFloat f) => Float64.is_finite f
  | None => false
  end.

(** [isinstance(value, str)] *)
Definition isinstance_str (o : PyObject) : bool :=
  match o with Val (PyStr _) => true | _ => false end.

(** [float(n)] for an int: correctly rounded, [OverflowError] beyond the
    largest finite float. *)
Definition float_of_int (z : Z) : result float64 :=
  let f := Float64.of_Z z in
  if Float64.is_finite f then Ok f
  else Raise (Exc OverflowError "int too large to convert to float").

(** [float(value)]; the program calls it on ints, bools and floats only. *)
Definition py_float (o : PyObject) : result float64 :=
  match as_number o with
  | Some (NInt z) => float_of_int z
  | Some (NFloat f) => Ok f
  | None =>
      Raise (Exc TypeError
        ("float() argument must be a string or a real number, not '"
           +:+ type_name o +:+ "'"))
  end.

Definition unsupported_operand (op : string) (a b : PyObject) : Exception :=
  Exc TypeError ("unsupported operand type(s) for " +:+ op +:+ ": '"
                   +:+ type_name a +:+ "' and '" +:+ type_name b +:+ "'").

(** [a + b] and [a - b] on numbers: ints stay ints, a float operand makes
    the other one a float first. *)
Definition py_arith (op : string) (iop : Z -> Z -> Z)
    (fop : float64 -> float64 -> float64) (a b : PyObject) : result PyVal :=
  match as_number a, as_number b with
  | Some (NInt x), Some (NInt y) => Ok (PyInt (iop x y))
  | Some (NFloat x), Some (NFloat y) => Ok (PyFloat (fop x y))
  | Some (NInt x), Some (NFloat y) =>
      let! fx := float_of_int x in Ok (PyFloat (fop fx y))
  | Some (NFloat x), Some (NInt y) =>
      let! fy := float_of_int y in Ok (PyFloat (fop x fy))
  | _, _ => Raise (unsupported_operand op a b)
  end.

Definition py_sub : PyObject -> PyObject -> result PyVal :=
  py_arith "-" Z.sub Float64.sub.

Definition py_add (a b : PyObject) : result PyVal :=
  match a, b with
  | Val (PyStr x), Val (PyStr y) => Ok (PyStr (x +:+ y))
  | Val (PyList x), Val (PyList y) => Ok (PyList (x ++ y))
  | _, _ => py_arith "+" Z.add Float64.add a b
  end.

(** ** Equality, membership and subscripting *)

Definition num_eq (a b : Number) : bool :=
  match a, b with
  | NInt x, NInt y => x =? y
  | NFloat x, NFloat y => Float64.eqb x y
  | NInt x, NFloat y => Float64.eqb_Z y x
  | NFloat x, NInt y => Float64.eqb_Z x y
  end.

Fixpoint dict_get (key : string) (d : list (string * PyVal)) : option PyVal :=
  match d with
  | [] => None
  | (k, v) :: rest => if String.eqb key k then Some v else dict_get key rest
  end.

(** [a == b] on values: numbers by value across int, bool and float, the
    other types structurally. *)
Fixpoint py_eq (a b : PyVal) {struct a} : bool :=
  match a, b with
  | PyNone, PyNone => true
  | PyStr x, PyStr y => String.eqb x y
  | PyList xs, PyList ys =>
      (fix go (xs ys : list PyVal) {struct xs} : bool :=
         match xs, ys with
         | [], [] => true
         | x :: xs', y :: ys' => py_eq x y && go xs' ys'
         | _, _ => false
         end) xs ys
  | PyDict xs, PyDict ys =>
      (length xs =? length ys)%nat &&
      (fix all (xs : list (string * PyVal)) {struct xs} : bool :=
         match xs with
         | [] => true
         | (k, v) :: xs' =>
             match dict_get k ys with
             | Some v' => py_eq v v'
             | None => false
             end && all xs'
         end) xs
  | _, _ =>
      match as_number a, as_number b with
      | Some x, Some y => num_eq x y
      | _, _ => false
      end
  end.

(** [sub in s] on strings *)
Fixpoint contains (sub s : string) : bool :=
  String.prefix sub s ||
  match s with
  | EmptyString => false
  | String _ s' => contains sub s'
  end.

(** [key in container] for a string key *)
Definition py_in (key : string) (container : PyObject) : result bool :=
  match container with
  | Val (PyDict d) =>
      Ok (match dict_get key d with Some _ => true | None => false end)
  | Val (PyList l) => Ok (existsb (py_eq (PyStr key)) l)
  | Val (PyStr s) => Ok (contains key s)
  | _ =>
      Raise (Exc TypeError
        ("argument of type '" +:+ type_name container +:+ "' is not iterable"))
  end.

(** [container[key]] for a string key *)
Definition py_getitem (container : PyObject) (key : string) : result PyVal :=
  match container with
  | Val (PyDict d) =>
      match dict_get key d with
      | Some v => Ok v
      | None => Raise (Exc KeyError ("'" +:+ key +:+ "'"))
      end
  | Val (PyList _) =>
      Raise (Exc TypeError "list indices must be integers or slices, not str")
  | Val (PyStr _) =>
      Raise (Exc TypeError "string indices must be integers, not 'str'")
  | _ =>
      Raise (Exc TypeError
        ("'" +:+ type_name container +:+ "' object is not subscriptable"))
  end.

(** ** class ThermodynamicSystem *)

Definition _validate_float (name : string) (value : PyObject) : result PyVal :=
  if negb (isinstance_int_float value) then
    Raise (Exc TypeError
      (name +:+ " must be a float or an integer, but got "
         +:+ type_name value +:+ "."))
  else
    let! f := py_float value in Ok (PyFloat f).

(** The default of the three constructor arguments, [0.0]. *)
Definition default_arg : PyObject := Val (PyFloat Float64.zero).

Definition __init__ (internal_energy heat_added work_done : PyObject)
  : result ThermodynamicSystem :=
  let! ie := _validate_float "internal_energy" internal_energy in
  let! q := _validate_float "heat_added" heat_added in
  let! w := _validate_float "work_done" work_done in
  Ok (mkSystem ie q w).

(** Property getters. *)
Definition internal_energy (self : ThermodynamicSystem) : PyVal :=
  _internal_energy self.
Definition heat_added (self : ThermodynamicSystem) : PyVal :=
  _heat_added self.
Definition work_done (self : ThermodynamicSystem) : PyVal :=
  _work_done self.

(** Property setters: validate, then assign. *)
Definition set_internal_energy (value : PyObject) : M ThermodynamicSystem unit :=
  let* v := st_lift (_validate_float "internal_energy" value) in
  let* self := st_get in
  st_put (mkSystem v (_heat_added self) (_work_done self)).

Definition set_heat_added (value : PyObject) : M ThermodynamicSystem unit :=
  let* v := st_lift (_validate_float "heat_added" value) in
  let* self := st_get in
  st_put (mkSystem (_internal_energy self) v (_work_done self)).

Definition set_work_done (value : PyObject) : M ThermodynamicSystem unit :=
  let* v := st_lift (_validate_float "work_done" value) in
  let* self := st_get in
  st_put (mkSystem (_internal_energy self) (_heat_added self) v).

Definition to_dict (self : ThermodynamicSystem) : PyVal :=
  PyDict [("internal_energy", internal_energy self);
          ("heat_added", heat_added self);
          ("work_done", work_done self)].

Definition required_keys : list string :=
  ["internal_energy"; "heat_added"; "work_done"].

(** The loop of [from_dict]: presence, then type, key by key. *)
Fixpoint check_keys (keys : list string) (data : PyObject) : result unit :=
  match keys with
  | [] => Ok tt
  | key :: rest =>
      let! present := py_in key data in
      if negb present then
        Raise (Exc ValueError
          ("Missing key '" +:+ key +:+ "' in system data for deserialization."))
      else
        let! v := py_getitem data key in
        if negb (isinstance_int_float v) then
          Raise (Exc TypeError
            ("Value for '" +:+ key +:+ "' must be a float, but got "
               +:+ type_name v +:+ "."))
        else check_keys rest data
  end.

Definition from_dict (data : PyObject) : result ThermodynamicSystem :=
  check_keys required_keys data ;;
  let! ie := py_getitem data "internal_energy" in
  let! q := py_getitem data "heat_added" in
  let! w := py_getitem data "work_done" in
  __init__ ie q w.

Definition __eq__ (self : ThermodynamicSystem) (other : PyObject) : bool :=
  match other with
  | Sys o =>
      py_eq (internal_energy self) (internal_energy o)
      && py_eq (heat_added self) (heat_added o)
      && py_eq (work_done self) (work_done o)
  | Val _ => false
  end.

(** ** class FirstLawCalculator *)

Definition is_none (o : PyObject) : bool :=
  match o with Val PyNone => true | _ => false end.

Fixpoint validate_each (inputs : list (string * PyObject)) : result unit :=
  match inputs with
  | [] => Ok tt
  | (name, value) :: rest =>
      if negb (is_none value) && negb (isinstance_int_float value) then
        Raise (Exc TypeError
          (name +:+ " must be a float or an integer, but got "
             +:+ type_name value +:+ "."))
      else validate_each rest
  end.

Definition _validate_calculation_inputs (delta_u heat_added work_done : PyObject)
  : result unit :=
  validate_each [("delta_u", delta_u); ("heat_added", heat_added);
                 ("work_done", work_done)].

Definition calculate_delta_u (system : PyObject) : result PyVal :=
  match system with
  | Sys s =>
      _validate_calculation_inputs PyNone (heat_added s) (work_done s) ;;
      py_sub (heat_added s) (work_done s)
  | Val _ =>
      Raise (Exc TypeError "Input must be an instance of ThermodynamicSystem.")
  end.

Definition calculate_heat_added (delta_u work_done : PyObject) : result PyVal :=
  _validate_calculation_inputs delta_u PyNone work_done ;;
  py_add delta_u work_done.

Definition calculate_work_done (delta_u heat_added : PyObject) : result PyVal :=
  _validate_calculation_inputs delta_u heat_added PyNone ;;
  py_sub heat_added delta_u.

(** ** Persistence functions

    [open], the file behind it and the operating system under it are not
    code of this repository, and neither are [json.dump] and [json.load] of
    Python's standard library: all are parameters of the functions below.
    Nothing is assumed of them.  Whatever [open] does with a path, be it a
    missing file, a refusal, a name rejected before the operating system
    sees it (a [ValueError] for a NUL character), bytes that are not UTF-8
    (a [UnicodeDecodeError]), a device that forgets what is written or a
    second name of another file, is an outcome of [os_read] or [os_write]. *)

Section Persistence.

(** The states of the file system. *)
Variable FS : Type.
(** [with open(path, 'r', encoding='utf-8') as f] and the read of the whole
    file that [json.load(f)] starts with: the decoded text, or what was
    raised. *)
Variable os_read : FS -> string -> result string.
(** [with open(path, 'w', encoding='utf-8') as f] and the write of the text
    that [json.dump] produces: what was raised, if anything, and the state
    the file system is left in. *)
Variable os_write : string -> string -> M FS unit.
(** [json.dump(obj, f, indent=n)]: the text written. *)
Variable json_dump : PyVal -> Z -> string.
(** [json.load(f)] on the text read. *)
Variable json_load : string -> result PyVal.

(** [except IOError as e] of [save_system_to_json]: [IOError] is [OSError],
    and [FileNotFoundError] is a subclass of it.  No other exception is
    caught. *)
Definition save_handler (filename : string) (e : Exception) : Exception :=
  match e with
  | Exc OSError m | Exc FileNotFoundError m =>
      Exc OSError ("Failed to save system to " +:+ filename +:+ ": " +:+ m)
  | _ => e
  end.

Definition save_system_to_json (system filename : PyObject) : M FS unit :=
  match system with
  | Sys s =>
      match filename with
      | Val (PyStr path) =>
          fun fs =>
            match os_write path (json_dump (to_dict s) 4) fs with
            | (Ok u, fs') => (Ok u, fs')
            | (Raise e, fs') => (Raise (save_handler path e), fs')
            end
      | _ => st_raise (Exc TypeError "Input 'filename' must be a string.")
      end
  | Val _ =>
      st_raise (Exc TypeError
        "Input 'system' must be an instance of ThermodynamicSystem.")
  end.

(** The [except] clauses of [load_system_from_json], in their order.  The
    third clause calls [type(e)] on the one message.  [UnicodeDecodeError]
    and [UnicodeEncodeError] are subclasses of [ValueError] whose
    constructor takes five arguments: for them the call itself raises a
    [TypeError], which leaves the handler in place of the wrapped error.
    An [OverflowError] matches no clause. *)
Definition load_handler (filename : string) (e : Exception) : Exception :=
  match e with
  | Exc FileNotFoundError _ =>
      Exc FileNotFoundError ("File not found: " +:+ filename)
  | JSONDecodeError msg doc pos =>
      JSONDecodeError
        ("Invalid JSON format in " +:+ filename +:+ ": " +:+ msg) doc pos
  | Exc ValueError m =>
      Exc ValueError
        ("Error parsing system data from " +:+ filename +:+ ": " +:+ m)
  | Exc UnicodeDecodeError _ | Exc UnicodeEncodeError _ =>
      Exc TypeError "function takes exactly 5 arguments (1 given)"
  | Exc TypeError m =>
      Exc TypeError
        ("Error parsing system data from " +:+ filename +:+ ": " +:+ m)
  | Exc KeyError m =>
      Exc KeyError
        ("Error parsing system data from " +:+ filename +:+ ": " +:+ m)
  | Exc OSError m =>
      Exc OSError ("Failed to load system from " +:+ filename +:+ ": " +:+ m)
  | Exc OverflowError _ | Exc (OtherError _) _ => e
  end.

Definition load_system_from_json (filename : PyObject)
  : M FS ThermodynamicSystem :=
  match filename with
  | Val (PyStr path) =>
      fun fs =>
        let body :=
          let! text := os_read fs path in
          let! data := json_load text in
          from_dict data in
        match body with
        | Ok system => (Ok system, fs)
        | Raise e => (Raise (load_handler path e), fs)
        end
  | _ => st_raise (Exc TypeError "Input 'filename' must be a string.")
  end.

End Persistence.

Arguments save_system_to_json {FS} os_write json_dump system filename _.
Arguments load_system_from_json {FS} os_read json_load filename _.

(** ** Sequences of assignments to the three properties *)

Inductive Field : Type :=
| InternalEnergy
| HeatAdded
| WorkDone.

Definition field_name (f : Field) : string :=
  match f with
  | InternalEnergy => "internal_energy"
  | HeatAdded => "heat_added"
  | WorkDone => "work_done"
  end.

Definition getter (f : Field) : ThermodynamicSystem -> PyVal :=
  match f with
  | InternalEnergy => internal_energy
  | HeatAdded => heat_added
  | WorkDone => work_done
  end.

(** The statement [system.<field> = value]. *)
Definition setter (f : Field) : PyObject -> M ThermodynamicSystem unit :=
  match f with
  | InternalEnergy => set_internal_energy
  | HeatAdded => set_heat_added
  | WorkDone => set_work_done
  end.

(** [self] with one attribute replaced. *)
Definition store (f : Field) (v : PyVal) (self : ThermodynamicSystem)
  : ThermodynamicSystem :=
  match f with
  | InternalEnergy => mkSystem v (_heat_added self) (_work_done self)
  | HeatAdded => mkSystem (_internal_energy self) v (_work_done self)
  | WorkDone => mkSystem (_internal_energy self) (_heat_added self) v
  end.

(** The key is in the mapping and its value is an int or a float. *)
Definition numeric_at (d : list (string * PyVal)) (key : string) : bool :=
  match dict_get key d with
  | Some v => isinstance_int_float v
  | None => false
  end.

(** The entity after a run of assignments, each of which returned or raised
    (the caller catching what is raised). *)
Fixpoint run_assignments (ops : list (Field * PyObject))
    (self : ThermodynamicSystem) : ThermodynamicSystem :=
  match ops with
  | [] => self
  | (f, value) :: rest => run_assignments rest (snd (setter f value self))
  end.

Definition holds_float (v : PyVal) : bool :=
  match v with PyFloat _ => true | _ => false end.

Definition fields_are_floats (self : ThermodynamicSystem) : bool :=
  holds_float (_internal_energy self)
  && holds_float (_heat_added self)
  && holds_float (_work_done self).

(** A float that is a number: positive, negative or zero, finite or not. *)
Definition holds_real (v : PyVal) : bool :=
  match v with PyFloat f => negb (Float64.is_nan f) | _ => false end.

Definition fields_are_reals (self : ThermodynamicSystem) : bool :=
  holds_real (_internal_energy self)
  && holds_real (_heat_added self)
  && holds_real (_work_done self).

(** A message names a parameter and the type of the value it was given. *)
Definition identifies (msg name : string) (value : PyObject) : bool :=
  contains name msg && contains (type_name value) msg.

(** The two round trips through the calculator: from [du] and [w] to the
    heat [du + w], then back to a value equal to [du] through an entity, or
    back to a value equal to [w] through [calculate_work_done]. *)
Definition delta_u_round_trip (du w : PyVal) : Prop :=
  exists q s r,
    calculate_heat_added du w = Ok q
    /\ __init__ default_arg q w = Ok s
    /\ calculate_delta_u (Sys s) = Ok r
    /\ py_eq r du = true.

Definition work_done_round_trip (du w : PyVal) : Prop :=
  exists q r,
    calculate_heat_added du w = Ok q
    /\ calculate_work_done du q = Ok r
    /\ py_eq r w = true.

(** [isinstance(data, dict)] *)
Definition is_mapping (o : PyObject) : bool :=
  match o with Val (PyDict _) => true | _ => false end.

(** ** A file system in memory

    One file system the persistence functions can run on, for concrete
    runs.  A name is bound to a regular text file, to a regular file whose
    bytes are not UTF-8, to something [open] refuses with an [OSError] (a
    directory, a file without permission), or to nothing because its
    directory does not exist; every other name is free.  A name with a NUL
    character is rejected by [open] before anything is looked up. *)

Module MemFS.

Inductive node : Type :=
| File (text : string)
| Binary (reason : string)
| Blocked (reason : string)
| Orphan.

Definition t : Type := gmap string node.

Definition nul : string := String "000"%char EmptyString.

Definition null_byte : Exception := Exc ValueError "embedded null byte".

Definition no_such_file (path : string) : Exception :=
  Exc FileNotFoundError
    ("[Errno 2] No such file or directory: '" +:+ path +:+ "'").

Definition read (fs : t) (path : string) : result string :=
  if contains nul path then Raise null_byte
  else
    match fs !! path with
    | None | Some Orphan => Raise (no_such_file path)
    | Some (File text) => Ok text
    | Some (Binary reason) => Raise (Exc UnicodeDecodeError reason)
    | Some (Blocked reason) => Raise (Exc OSError reason)
    end.

Definition write (path text : string) : M t unit :=
  fun fs =>
    if contains nul path then (Raise null_byte, fs)
    else
      match fs !! path with
      | Some (Blocked reason) => (Raise (Exc OSError reason), fs)
      | Some Orphan => (Raise (no_such_file path), fs)
      | _ => (Ok tt, <[path := File text]> fs)
      end.

End MemFS.

(** ** Documents of the test-suite, for concrete runs *)

Module Fixture.

Definition dq : string := String "034"%char EmptyString.
Definition nl : string := String "010"%char EmptyString.

Definition f100 : float64 := Float64.of_Z 100.
Definition f50 : float64 := Float64.of_Z 50.
Definition f20 : float64 := Float64.of_Z 20.

Definition system : ThermodynamicSystem :=
  mkSystem (PyFloat f100) (PyFloat f50) (PyFloat f20).

(** What [json.dump(system.to_dict(), f, indent=4)] writes for [system]. *)
Definition doc_saved : string :=
  "{" +:+ nl
  +:+ "    " +:+ dq +:+ "internal_energy" +:+ dq +:+ ": 100.0," +:+ nl
  +:+ "    " +:+ dq +:+ "heat_added" +:+ dq +:+ ": 50.0," +:+ nl
  +:+ "    " +:+ dq +:+ "work_done" +:+ dq +:+ ": 20.0" +:+ nl
  +:+ "}".

Definition doc_missing_key : string :=
  "{" +:+ dq +:+ "internal_energy" +:+ dq +:+ ": 100.0, "
  +:+ dq +:+ "work_done" +:+ dq +:+ ": 20.0}".

Definition doc_wrong_type : string :=
  "{" +:+ dq +:+ "internal_energy" +:+ dq +:+ ": " +:+ dq +:+ "100.0" +:+ dq
  +:+ ", " +:+ dq +:+ "heat_added" +:+ dq +:+ ": 50.0, "
  +:+ dq +:+ "work_done" +:+ dq +:+ ": 20.0}".

Definition doc_malformed : string := "{'internal_energy': 100,}".

Definition documents : list (string * result PyVal) :=
  [ (doc_saved, Ok (to_dict system));
    (doc_missing_key,
     Ok (PyDict [("internal_energy", PyFloat f100);
                 ("work_done", PyFloat f20)]));
    (doc_wrong_type,
     Ok (PyDict [("internal_energy", PyStr "100.0");
                 ("heat_added", PyFloat f50);
                 ("work_done", PyFloat f20)]));
    (doc_malformed,
     Raise (JSONDecodeError
              "Expecting property name enclosed in double quotes"
              doc_malformed 1)) ].

(** A decoder that knows the documents above and rejects the rest. *)
Definition json_load (text : string) : result PyVal :=
  match List.find (fun entry => String.eqb text (fst entry)) documents with
  | Some entry => snd entry
  | None => Raise (JSONDecodeError "Expecting value" text 0)
  end.

(** An encoder that knows [system]. *)
Definition json_dump (obj : PyVal) (indent : Z) : string := doc_saved.

Definition path : string := "system.json".

Definition disk : MemFS.t :=
  <[ "missing_key.json" := MemFS.File doc_missing_key ]>
  (<[ "wrong_type.json" := MemFS.File doc_wrong_type ]>
  (<[ "malformed.json" := MemFS.File doc_malformed ]> ∅)).



(** A disk with a directory, and a name under a directory that is not
    there. *)
Definition busy_disk : MemFS.t :=
  <[ "/data" := MemFS.Blocked "[Errno 21] Is a directory: '/data'" ]>
  (<[ "/nowhere/system.json" := MemFS.Orphan ]> disk).

End Fixture.

(** * Properties *)

(** ** Strings *)

Lemma prefix_append (p s : string) : String.prefix p (p +:+ s) = true.
Proof.
  induction p as [|c p IH]; simpl.
  - now destruct s.
  - destruct (Ascii.ascii_dec c c) as [_|n]; [exact IH | now destruct n].
Qed.

Lemma contains_prefix (sub s : string) :
  String.prefix sub s = true -> contains sub s = true.
Proof. intros H. destruct s; simpl in *; rewrite H; reflexivity. Qed.

Lemma contains_append (sub pre post : string) :
  contains sub (pre +:+ sub +:+ post) = true.
Proof.
  induction pre as [|c pre IH].
  - change (contains sub (sub +:+ post) = true).
    apply contains_prefix. apply prefix_append.
  - change (contains sub (String c (pre +:+ sub +:+ post)) = true).
    cbn [contains]. rewrite IH. apply orb_true_r.
Qed.


Lemma contains_head (sub post : string) : contains sub (sub +:+ post) = true.
Proof. apply contains_prefix. apply prefix_append. Qed.

(** ** Floats *)

Lemma float_eqb_refl (f : float64) :
  Float64.is_nan f = false -> Float64.eqb f f = true.
Proof.
  unfold Float64.eqb, SFeqb.
  destruct f as [s|s| |s m e]; simpl; try discriminate; intros _.
  - reflexivity.
  - now destruct s.
  - rewrite Z.compare_refl, Pos.compare_cont_refl. now destruct s.
Qed.

Lemma float_of_int_finite (z : Z) (f : float64) :
  float_of_int z = Ok f -> Float64.is_finite f = true.
Proof.
  unfold float_of_int.
  destruct (Float64.is_finite (Float64.of_Z z)) eqn:E; [|discriminate].
  intros [= <-]. exact E.
Qed.

Lemma float_of_int_value (z : Z) (f : float64) :
  float_of_int z = Ok f -> f = Float64.of_Z z.
Proof.
  unfold float_of_int.
  destruct (Float64.is_finite (Float64.of_Z z)); [|discriminate].
  now intros [= <-].
Qed.

Lemma finite_not_nan (f : float64) :
  Float64.is_finite f = true -> Float64.is_nan f = false.
Proof. now destruct f. Qed.

(** ** Exact binary64 arithmetic

    Rounding leaves a number alone when it already is a binary64 number:
    the lemmas below follow [binary_round] on such an input, and give the
    sum and the difference of two floats when these are floats. *)

Lemma digits2_pos_size (p : positive) : digits2_pos p = Pos.size p.
Proof. induction p; simpl; congruence. Qed.

Lemma digits_log2 (p : positive) :
  Zpos (digits2_pos p) = Z.log2 (Zpos p) + 1.
Proof.
  destruct p as [p|p|]; simpl; rewrite ?digits2_pos_size; lia.
Qed.

Lemma shift_value (m d : positive) :
  Zpos (Pos.iter xO m d) = Zpos m * 2 ^ Zpos d.
Proof.
  induction d as [|d IH] using Pos.peano_ind.
  - simpl. lia.
  - rewrite Pos.iter_succ, Pos2Z.inj_succ, Z.pow_succ_r by lia.
    rewrite Pos2Z.inj_xO, IH. lia.
Qed.

Lemma iter_pos_iter {A : Type} (f : A -> A) (p : positive) (x : A) :
  SpecFloat.iter_pos f p x = Pos.iter f x p.
Proof.
  revert x. induction p as [p IH|p IH|]; intros x; simpl.
  - rewrite !IH. now rewrite !Pos.iter_swap.
  - now rewrite !IH.
  - reflexivity.
Qed.

Lemma shr_exact (m d : positive) :
  SpecFloat.iter_pos shr_1 d (Build_shr_record (Zpos (Pos.iter xO m d)) false false) =
  Build_shr_record (Zpos m) false false.
Proof.
  rewrite iter_pos_iter.
  induction d as [|d IH] using Pos.peano_ind.
  - reflexivity.
  - rewrite (Pos.iter_succ d _ xO), (Pos.iter_succ_r d _ shr_1). exact IH.
Qed.

Lemma bounded_spec (m : positive) (e : Z) :
  bounded 53 1024 m e = true <->
  fexp 53 1024 (Zpos (digits2_pos m) + e) = e /\ e <= 971.
Proof.
  unfold bounded, canonical_mantissa.
  rewrite andb_true_iff, Z.eqb_eq, Z.leb_le. reflexivity.
Qed.

Lemma fexp_ge (x : Z) : -1074 <= fexp 53 1024 x.
Proof. unfold fexp, emin. lia. Qed.

Lemma round_aux_canonical (s : bool) (m : positive) (e : Z) :
  bounded 53 1024 m e = true ->
  binary_round_aux 53 1024 s (Zpos m) e loc_Exact = S754_finite s m e.
Proof.
  intros [Hc He]%bounded_spec.
  unfold binary_round_aux, shr_fexp. cbn [Zdigits2 shr_record_of_loc].
  rewrite Hc, Z.sub_diag.
  cbn [shr shr_m loc_of_shr_record round_nearest_even Zdigits2 shr_record_of_loc].
  rewrite Hc, Z.sub_diag. cbn [shr shr_m].
  apply Z.leb_le in He. change (1024 - 53) with 971. now rewrite He.
Qed.

Lemma same_digits (m m' : positive) (a b : Z) :
  0 <= a -> 0 <= b ->
  Zpos m * 2 ^ a = Zpos m' * 2 ^ b ->
  Zpos (digits2_pos m) + a = Zpos (digits2_pos m') + b.
Proof.
  intros Ha Hb H. rewrite !digits_log2.
  apply (f_equal Z.log2) in H. rewrite !Z.log2_mul_pow2 in H; lia.
Qed.

Lemma binary_round_exact (s : bool) (m m' : positive) (e e' : Z) :
  bounded 53 1024 m' e' = true ->
  Zpos m * 2 ^ (e - Z.min e e') = Zpos m' * 2 ^ (e' - Z.min e e') ->
  binary_round 53 1024 s m e = S754_finite s m' e'.
Proof.
  intros Hb Hv. pose proof Hb as [Hc He]%bounded_spec.
  assert (Hd : Zpos (digits2_pos m) + e = Zpos (digits2_pos m') + e').
  { assert (Ha : 0 <= e - Z.min e e') by lia.
    assert (Ha' : 0 <= e' - Z.min e e') by lia.
    pose proof (same_digits m m' _ _ Ha Ha' Hv). lia. }
  unfold binary_round. rewrite Hd, Hc. unfold shl_align.
  destruct (e' - e) as [|p|p] eqn:E.
  - assert (e' = e) by lia. subst e'.
    rewrite Z.min_id, Z.sub_diag, !Z.mul_1_r in Hv. injection Hv as ->.
    now apply round_aux_canonical.
  - rewrite Z.min_l, Z.sub_diag, Z.mul_1_r, E in Hv by lia.
    assert (Hm : m = Pos.iter xO m' p).
    { apply Pos2Z.inj. now rewrite shift_value. }
    unfold binary_round_aux, shr_fexp. cbn [Zdigits2 shr_record_of_loc].
    rewrite Hd, Hc, E. cbn [shr]. rewrite Hm, shr_exact.
    cbn [shr_m loc_of_shr_record round_nearest_even Zdigits2 shr_record_of_loc].
    replace (e + Z.pos p) with e' by lia.
    rewrite Hc, Z.sub_diag. cbn [shr shr_m].
    apply Z.leb_le in He. change (1024 - 53) with 971. now rewrite He.
  - rewrite Z.min_r, Z.sub_diag, Z.mul_1_r in Hv by lia.
    replace (e - e') with (Zpos p) in Hv by lia.
    assert (Hm : Pos.iter xO m p = m').
    { apply Pos2Z.inj. now rewrite shift_value. }
    rewrite Hm. now apply round_aux_canonical.
Qed.

Lemma valid_exp_ok (f : float64) : Float64.valid f = true -> Float64.exponent_ok f.
Proof.
  destruct f as [| | |s m e]; simpl; trivial.
  intros [Hc _]%bounded_spec. rewrite <- Hc. apply fexp_ge.
Qed.

Lemma shr_snd_ge (mrs : shr_record) (e n : Z) : e <= snd (shr mrs e n).
Proof. destruct n; simpl; lia. Qed.

Lemma binary_round_aux_exp_ok (s : bool) (m e : Z) (l : location) :
  -1074 <= e -> Float64.exponent_ok (binary_round_aux 53 1024 s m e l).
Proof.
  intros He. unfold binary_round_aux, shr_fexp.
  set (n1 := fexp 53 1024 (Zdigits2 m + e) - e).
  pose proof (shr_snd_ge (shr_record_of_loc m l) e n1) as H1.
  destruct (shr (shr_record_of_loc m l) e n1) as [mrs1 e1]. cbn [snd] in H1.
  set (m2 := round_nearest_even (shr_m mrs1) (loc_of_shr_record mrs1)).
  set (n2 := fexp 53 1024 (Zdigits2 m2 + e1) - e1).
  pose proof (shr_snd_ge (shr_record_of_loc m2 loc_Exact) e1 n2) as H2.
  destruct (shr (shr_record_of_loc m2 loc_Exact) e1 n2) as [mrs2 e2].
  cbn [snd] in H2.
  destruct (shr_m mrs2); simpl; trivial.
  destruct (e2 <=? 1024 - 53); simpl; [lia | trivial].
Qed.

Lemma binary_round_exp_ok (s : bool) (m : positive) (e : Z) :
  -1074 <= e -> Float64.exponent_ok (binary_round 53 1024 s m e).
Proof.
  intros He. unfold binary_round, shl_align.
  pose proof (fexp_ge (Zpos (digits2_pos m) + e)) as Hf.
  destruct (fexp 53 1024 (Zpos (digits2_pos m) + e) - e);
    now apply binary_round_aux_exp_ok.
Qed.

Lemma binary_normalize_exp_ok (z e : Z) (sz : bool) :
  -1074 <= e -> Float64.exponent_ok (binary_normalize 53 1024 z e sz).
Proof.
  intros He. destruct z; simpl; trivial; now apply binary_round_exp_ok.
Qed.

Lemma shl_align_fst (m : positive) (e ez : Z) :
  ez <= e -> Zpos (fst (shl_align m e ez)) = Zpos m * 2 ^ (e - ez).
Proof.
  intros H. unfold shl_align. destruct (ez - e) as [|p|p] eqn:E; cbn [fst].
  - replace (e - ez) with 0 by lia. lia.
  - lia.
  - rewrite shift_value. f_equal. f_equal. lia.
Qed.

Lemma cond_Zopp_mul (s : bool) (a b : Z) :
  cond_Zopp s a * b = cond_Zopp s (a * b).
Proof. destruct s; simpl; lia. Qed.

Lemma aligned_units (s : bool) (m : positive) (e ez : Z) :
  -1074 <= ez -> ez <= e ->
  cond_Zopp s (Zpos (fst (shl_align m e ez))) * 2 ^ (ez + 1074) =
  Float64.units (S754_finite s m e).
Proof.
  intros H1 H2. rewrite shl_align_fst by exact H2. cbn [Float64.units].
  rewrite !cond_Zopp_mul. f_equal.
  replace (e + 1074) with ((e - ez) + (ez + 1074)) by lia.
  rewrite (Z.pow_add_r 2 (e - ez) (ez + 1074)) by lia. ring.
Qed.

Lemma units_finite_nonzero (s : bool) (m : positive) (e : Z) :
  -1074 <= e -> Float64.units (S754_finite s m e) <> 0.
Proof.
  intros He. cbn [Float64.units].
  assert (0 < 2 ^ (e + 1074)) by (apply Z.pow_pos_nonneg; lia).
  destruct s; simpl; lia.
Qed.

Lemma binary_normalize_exact (z e : Z) (s' : bool) (m' : positive) (e' : Z) :
  bounded 53 1024 m' e' = true ->
  -1074 <= e ->
  z * 2 ^ (e + 1074) = Float64.units (S754_finite s' m' e') ->
  binary_normalize 53 1024 z e false = S754_finite s' m' e'.
Proof.
  intros Hb He Hz.
  assert (He' : -1074 <= e') by (apply (valid_exp_ok (S754_finite s' m' e')), Hb).
  cbn [Float64.units] in Hz.
  assert (P : 0 < 2 ^ (e + 1074)) by (apply Z.pow_pos_nonneg; lia).
  assert (P' : 0 < 2 ^ (e' + 1074)) by (apply Z.pow_pos_nonneg; lia).
  assert (Hcore : forall p : positive,
             Zpos p * 2 ^ (e + 1074) = Zpos m' * 2 ^ (e' + 1074) ->
             Zpos p * 2 ^ (e - Z.min e e') = Zpos m' * 2 ^ (e' - Z.min e e')).
  { intros p Hp.
    assert (Q : 0 < 2 ^ (Z.min e e' + 1074)) by (apply Z.pow_pos_nonneg; lia).
    apply (Z.mul_reg_r _ _ (2 ^ (Z.min e e' + 1074))); [lia|].
    rewrite <- !Z.mul_assoc.
    rewrite <- (Z.pow_add_r 2 (e - Z.min e e') (Z.min e e' + 1074)) by lia.
    rewrite <- (Z.pow_add_r 2 (e' - Z.min e e') (Z.min e e' + 1074)) by lia.
    replace (e - Z.min e e' + (Z.min e e' + 1074)) with (e + 1074) by lia.
    replace (e' - Z.min e e' + (Z.min e e' + 1074)) with (e' + 1074) by lia.
    exact Hp. }
  destruct z as [|p|p]; cbn [binary_normalize].
  - destruct s'; simpl in Hz; lia.
  - destruct s'; simpl in Hz; [lia|].
    apply binary_round_exact; [exact Hb | now apply Hcore].
  - destruct s'; simpl in Hz; [|lia].
    apply binary_round_exact; [exact Hb | apply Hcore; lia].
Qed.

Lemma normalize_units (z e : Z) (f : float64) :
  -1074 <= e ->
  Float64.valid f = true -> Float64.is_finite f = true ->
  z * 2 ^ (e + 1074) = Float64.units f ->
  Float64.eqb (binary_normalize 53 1024 z e false) f = true.
Proof.
  intros He Hv Hf Hz. destruct f as [s| | |s m e']; try discriminate.
  - cbn [Float64.units] in Hz.
    assert (0 < 2 ^ (e + 1074)) by (apply Z.pow_pos_nonneg; lia).
    assert (z = 0) by nia. subst z. reflexivity.
  - rewrite (binary_normalize_exact z e s m e' Hv He Hz).
    now apply float_eqb_refl.
Qed.

Lemma eqb_of_units (x y : float64) :
  Float64.valid x = true -> Float64.valid y = true ->
  Float64.is_finite x = true -> Float64.is_finite y = true ->
  Float64.units x = Float64.units y ->
  Float64.eqb x y = true.
Proof.
  intros Vx Vy Fx Fy H.
  destruct x as [sx| | |sx mx ex]; try discriminate.
  - destruct y as [sy| | |sy my ey]; try discriminate; [reflexivity|].
    exfalso. apply (units_finite_nonzero sy my ey);
      [exact (valid_exp_ok _ Vy) | now rewrite <- H].
  - pose proof (valid_exp_ok _ Vx) as Ex. cbn [Float64.exponent_ok] in Ex.
    rewrite <- (binary_normalize_exact (cond_Zopp sx (Zpos mx)) ex sx mx ex Vx Ex)
      by reflexivity.
    apply normalize_units; assumption.
Qed.

Lemma sub_finite (sx sy : bool) (mx my : positive) (ex ey : Z) :
  -1074 <= ex -> -1074 <= ey ->
  exists z,
    Float64.sub (S754_finite sx mx ex) (S754_finite sy my ey) =
      binary_normalize 53 1024 z (Z.min ex ey) false
    /\ z * 2 ^ (Z.min ex ey + 1074) =
       Float64.units (S754_finite sx mx ex) - Float64.units (S754_finite sy my ey).
Proof.
  intros Hx Hy. eexists. split; [reflexivity|].
  rewrite Z.mul_sub_distr_r, !aligned_units by lia. reflexivity.
Qed.

Lemma add_finite (sx sy : bool) (mx my : positive) (ex ey : Z) :
  -1074 <= ex -> -1074 <= ey ->
  exists z,
    Float64.add (S754_finite sx mx ex) (S754_finite sy my ey) =
      binary_normalize 53 1024 z (Z.min ex ey) false
    /\ z * 2 ^ (Z.min ex ey + 1074) =
       Float64.units (S754_finite sx mx ex) + Float64.units (S754_finite sy my ey).
Proof.
  intros Hx Hy. eexists. split; [reflexivity|].
  rewrite Z.mul_add_distr_r, !aligned_units by lia. reflexivity.
Qed.

Lemma units_opp (s : bool) (m : positive) (e : Z) :
  Float64.units (S754_finite (negb s) m e) = - Float64.units (S754_finite s m e).
Proof. cbn [Float64.units]. destruct s; simpl; lia. Qed.

(** Subtraction of two valid finite floats whose difference is a float
    returns that float. *)
Lemma sub_exact (x y z : float64) :
  Float64.valid x = true -> Float64.valid y = true -> Float64.valid z = true ->
  Float64.is_finite x = true -> Float64.is_finite y = true ->
  Float64.is_finite z = true ->
  Float64.units x - Float64.units y = Float64.units z ->
  Float64.eqb (Float64.sub x y) z = true.
Proof.
  intros Vx Vy Vz Fx Fy Fz H.
  destruct x as [sx| | |sx mx ex]; try discriminate;
    destruct y as [sy| | |sy my ey]; try discriminate.
  - apply eqb_of_units; try assumption; try reflexivity.
    + now destruct sx, sy.
    + now destruct sx, sy.
    + rewrite <- H. now destruct sx, sy.
  - change (Float64.sub (S754_zero sx) (S754_finite sy my ey))
      with (S754_finite (negb sy) my ey).
    apply eqb_of_units; try assumption; try reflexivity.
    rewrite units_opp, <- H. cbn [Float64.units]. lia.
  - change (Float64.sub (S754_finite sx mx ex) (S754_zero sy))
      with (S754_finite sx mx ex).
    apply eqb_of_units; try assumption;
      try (rewrite <- H; cbn [Float64.units]; lia).
  - pose proof (valid_exp_ok _ Vx) as Ex. pose proof (valid_exp_ok _ Vy) as Ey.
    cbn [Float64.exponent_ok] in Ex, Ey.
    destruct (sub_finite sx sy mx my ex ey Ex Ey) as (v & -> & Hv).
    apply normalize_units; try assumption; [lia | congruence].
Qed.

Lemma add_exact (x y z : float64) :
  Float64.valid x = true -> Float64.valid y = true -> Float64.valid z = true ->
  Float64.is_finite x = true -> Float64.is_finite y = true ->
  Float64.is_finite z = true ->
  Float64.units x + Float64.units y = Float64.units z ->
  Float64.eqb (Float64.add x y) z = true.
Proof.
  intros Vx Vy Vz Fx Fy Fz H.
  destruct x as [sx| | |sx mx ex]; try discriminate;
    destruct y as [sy| | |sy my ey]; try discriminate.
  - apply eqb_of_units; try assumption; try reflexivity.
    + now destruct sx, sy.
    + now destruct sx, sy.
    + rewrite <- H. now destruct sx, sy.
  - change (Float64.add (S754_zero sx) (S754_finite sy my ey))
      with (S754_finite sy my ey).
    apply eqb_of_units; try assumption;
      try (rewrite <- H; cbn [Float64.units]; lia).
  - change (Float64.add (S754_finite sx mx ex) (S754_zero sy))
      with (S754_finite sx mx ex).
    apply eqb_of_units; try assumption;
      try (rewrite <- H; cbn [Float64.units]; lia).
  - pose proof (valid_exp_ok _ Vx) as Ex. pose proof (valid_exp_ok _ Vy) as Ey.
    cbn [Float64.exponent_ok] in Ex, Ey.
    destruct (add_finite sx sy mx my ex ey Ex Ey) as (v & -> & Hv).
    apply normalize_units; try assumption; [lia | congruence].
Qed.

Lemma add_exp_ok (x y : float64) :
  Float64.exponent_ok x -> Float64.exponent_ok y -> Float64.exponent_ok (Float64.add x y).
Proof.
  intros Hx Hy.
  destruct x as [sx|sx| |sx mx ex], y as [sy|sy| |sy my ey];
    try exact I; try exact Hx; try exact Hy;
    try (destruct sx, sy; exact I).
  cbn [Float64.exponent_ok] in Hx, Hy.
  apply binary_normalize_exp_ok. lia.
Qed.

Lemma sub_exact_left (x y z : float64) :
  Float64.exponent_ok x -> (Float64.is_zero y = true -> Float64.valid x = true) ->
  Float64.valid y = true -> Float64.valid z = true ->
  Float64.is_finite x = true -> Float64.is_finite y = true ->
  Float64.is_finite z = true ->
  Float64.units x - Float64.units y = Float64.units z ->
  Float64.eqb (Float64.sub x y) z = true.
Proof.
  intros Ex Vx Vy Vz Fx Fy Fz H.
  destruct x as [sx| | |sx mx ex]; try discriminate;
    destruct y as [sy| | |sy my ey]; try discriminate.
  - now apply sub_exact.
  - now apply sub_exact.
  - apply sub_exact; try assumption. now apply Vx.
  - pose proof (valid_exp_ok _ Vy) as Ey. cbn [Float64.exponent_ok] in Ex, Ey.
    destruct (sub_finite sx sy mx my ex ey Ex Ey) as (v & -> & Hv).
    apply normalize_units; try assumption; [lia | congruence].
Qed.

Lemma add_zero_valid (x y : float64) :
  Float64.valid x = true -> Float64.is_finite x = true -> Float64.is_zero y = true ->
  Float64.valid (Float64.add x y) = true /\
  Float64.valid (Float64.add y x) = true.
Proof.
  intros Vx Fx Zy. destruct y as [sy| | |]; try discriminate.
  destruct x as [sx| | |sx mx ex]; try discriminate.
  - now destruct sx, sy.
  - split; exact Vx.
Qed.

(** When the sum of two floats is computed without rounding, subtracting
    either operand from it gives back the other one. *)
Lemma sub_after_exact_add (x y : float64) :
  Float64.valid x = true -> Float64.valid y = true ->
  Float64.is_finite x = true -> Float64.is_finite y = true ->
  Float64.is_finite (Float64.add x y) = true ->
  Float64.units (Float64.add x y) = Float64.units x + Float64.units y ->
  Float64.eqb (Float64.sub (Float64.add x y) y) x = true
  /\ Float64.eqb (Float64.sub (Float64.add x y) x) y = true.
Proof.
  intros Vx Vy Fx Fy Fq Hq.
  pose proof (add_exp_ok x y (valid_exp_ok x Vx) (valid_exp_ok y Vy)) as Eq.
  split; apply sub_exact_left; try assumption; try lia.
  - intros Zy. now apply (add_zero_valid x y).
  - intros Zx. now apply (add_zero_valid y x).
Qed.

Lemma binary_round_int (s : bool) (p : positive) :
  Zpos p <= 2 ^ 53 ->
  exists m e,
    binary_round 53 1024 s p 0 = S754_finite s m e
    /\ bounded 53 1024 m e = true
    /\ Zpos m * 2 ^ (e + 1074) = Zpos p * 2 ^ 1074.
Proof.
  intros Hp.
  assert (Hl : Z.log2 (Zpos p) <= 53).
  { rewrite <- (Z.log2_pow2 53) by lia. now apply Z.log2_le_mono. }
  pose proof (Z.log2_nonneg (Zpos p)) as Hl0.
  destruct (Z.eq_dec (Z.log2 (Zpos p)) 53) as [E|E].
  - pose proof (Z.log2_spec (Zpos p) ltac:(lia)) as [Hlo _]. rewrite E in Hlo.
    assert (Hp' : Zpos p = 2 ^ 53) by lia.
    change (2 ^ 53) with (Zpos 9007199254740992) in Hp'. injection Hp' as ->.
    exists 4503599627370496%positive, 1. destruct s; vm_compute; auto.
  - set (d := Z.log2 (Zpos p) + 1).
    assert (Hpos : 0 < Zpos p * 2 ^ (53 - d)).
    { apply Z.mul_pos_pos; [lia | apply Z.pow_pos_nonneg; lia]. }
    set (m := Z.to_pos (Zpos p * 2 ^ (53 - d))).
    assert (Hm : Zpos m = Zpos p * 2 ^ (53 - d)) by (apply Z2Pos.id; lia).
    assert (Hb : bounded 53 1024 m (d - 53) = true).
    { apply bounded_spec. rewrite digits_log2, Hm, Z.log2_mul_pow2 by lia.
      unfold fexp, emin. lia. }
    exists m, (d - 53). split; [|split].
    + apply binary_round_exact; [exact Hb|].
      rewrite Z.min_r by lia. rewrite Z.sub_diag, Z.mul_1_r, Hm.
      f_equal. f_equal. lia.
    + exact Hb.
    + rewrite Hm, <- Z.mul_assoc.
      rewrite <- (Z.pow_add_r 2 (53 - d) (d - 53 + 1074)) by lia.
      f_equal. f_equal. lia.
Qed.

Lemma of_Z_exact (n : Z) :
  Z.abs n <= 2 ^ 53 ->
  Float64.valid (Float64.of_Z n) = true
  /\ Float64.is_finite (Float64.of_Z n) = true
  /\ Float64.units (Float64.of_Z n) = n * 2 ^ 1074.
Proof.
  intros Hn. destruct n as [|p|p].
  - repeat split.
  - change (Float64.of_Z (Zpos p)) with (binary_round 53 1024 false p 0).
    destruct (binary_round_int false p) as (m & e & -> & Hb & Hu); [lia|].
    repeat split; [exact Hb | exact Hu].
  - change (Float64.of_Z (Zneg p)) with (binary_round 53 1024 true p 0).
    destruct (binary_round_int true p) as (m & e & -> & Hb & Hu); [lia|].
    repeat split; [exact Hb|]. cbn [Float64.units cond_Zopp].
    rewrite Z.mul_opp_l, Hu. lia.
Qed.

Lemma float_of_int_exact (n : Z) :
  Z.abs n <= 2 ^ 53 -> float_of_int n = Ok (Float64.of_Z n).
Proof.
  intros Hn. unfold float_of_int.
  now destruct (of_Z_exact n Hn) as (_ & -> & _).
Qed.

Lemma eqb_cases (f g : float64) :
  Float64.eqb f g = true ->
  f = g \/ (Float64.is_zero f = true /\ Float64.is_zero g = true).
Proof.
  unfold Float64.eqb, SFeqb.
  destruct f as [sf|sf| |sf mf ef], g as [sg|sg| |sg mg eg];
    cbn [SFcompare Float64.is_zero]; intros H;
    try solve [ repeat match goal with s : bool |- _ => destruct s end;
                first [discriminate H | auto] ].
  left.
  destruct sf, sg; try discriminate H;
    destruct (ef ?= eg) eqn:E; try discriminate H;
    apply Z.compare_eq in E; subst eg;
    destruct (Pos.compare_cont Eq mf mg) eqn:C; try discriminate H;
    apply Pos.compare_eq in C; subst mg; reflexivity.
Qed.

Lemma eqb_units (f g : float64) :
  Float64.eqb f g = true -> Float64.units f = Float64.units g.
Proof.
  intros [->|[Hf Hg]]%eqb_cases; [reflexivity|].
  destruct f, g; try discriminate; reflexivity.
Qed.

Lemma eqb_exp_ok (f g : float64) :
  Float64.eqb f g = true -> Float64.is_finite g = true -> Float64.exponent_ok g ->
  Float64.is_finite f = true /\ Float64.exponent_ok f.
Proof.
  intros [->|[Hf Hg]]%eqb_cases; [auto|].
  destruct f; try discriminate. now split.
Qed.

Lemma eqb_Z_of_units (f : float64) (n : Z) :
  Float64.is_finite f = true -> Float64.exponent_ok f ->
  Float64.units f = n * 2 ^ 1074 ->
  Float64.eqb_Z f n = true.
Proof.
  intros Hf He Hu. destruct f as [s| | |s m e]; try discriminate.
  - cbn [Float64.units] in Hu. cbn [Float64.eqb_Z].
    assert (0 < 2 ^ 1074) by (apply Z.pow_pos_nonneg; lia).
    apply Z.eqb_eq. nia.
  - cbn [Float64.exponent_ok] in He. cbn [Float64.units] in Hu. cbn [Float64.eqb_Z].
    destruct (0 <=? e) eqn:E; apply Z.eqb_eq.
    + apply Z.leb_le in E.
      rewrite (Z.pow_add_r 2 e 1074), Z.mul_assoc in Hu by lia.
      apply Z.mul_reg_r in Hu; [now symmetry|].
      apply Z.pow_nonzero; lia.
    + apply Z.leb_gt in E.
      replace 1074 with (- e + (e + 1074)) in Hu at 2 by lia.
      rewrite (Z.pow_add_r 2 (- e) (e + 1074)), Z.mul_assoc in Hu by lia.
      apply Z.mul_reg_r in Hu; [now symmetry|].
      apply Z.pow_nonzero; lia.
Qed.

(** ** Validation *)

Lemma validate_float_rejects (name : string) (value : PyObject) :
  isinstance_int_float value = false ->
  _validate_float name value =
    Raise (Exc TypeError (name +:+ " must be a float or an integer, but got "
                            +:+ type_name value +:+ ".")).
Proof. unfold _validate_float. now intros ->. Qed.

Lemma validate_float_returns_float (name : string) (value : PyObject) (v : PyVal) :
  _validate_float name value = Ok v -> holds_float v = true.
Proof.
  unfold _validate_float.
  destruct (negb (isinstance_int_float value)); [discriminate|].
  destruct (py_float value); simpl; [|discriminate].
  now intros [= <-].
Qed.

Lemma validate_float_type_error (name : string) (value : PyObject) (msg : string) :
  _validate_float name value = Raise (Exc TypeError msg) ->
  isinstance_int_float value = false /\
  msg = name +:+ " must be a float or an integer, but got "
          +:+ type_name value +:+ ".".
Proof.
  unfold _validate_float, isinstance_int_float, py_float.
  destruct (as_number value) as [[z|f]|]; simpl.
  - unfold float_of_int. destruct (Float64.is_finite _); discriminate.
  - discriminate.
  - now intros [= <-].
Qed.

Lemma validate_float_of_int (name : string) (z : Z) :
  _validate_float name (PyInt z) = (let! f := float_of_int z in Ok (PyFloat f)).
Proof. reflexivity. Qed.

Lemma py_eq_floats (a b : float64) :
  py_eq (PyFloat a) (PyFloat b) = Float64.eqb a b.
Proof. reflexivity. Qed.

Lemma init_returns_floats (ie q w : PyObject) (s : ThermodynamicSystem) :
  __init__ ie q w = Ok s -> fields_are_floats s = true.
Proof.
  unfold __init__, fields_are_floats.
  destruct (_validate_float "internal_energy" ie) as [a|] eqn:Ea; [|discriminate].
  destruct (_validate_float "heat_added" q) as [b|] eqn:Eb; [|discriminate].
  destruct (_validate_float "work_done" w) as [c|] eqn:Ec; [|discriminate].
  simpl. intros [= <-]. simpl.
  now rewrite (validate_float_returns_float _ _ _ Ea),
    (validate_float_returns_float _ _ _ Eb),
    (validate_float_returns_float _ _ _ Ec).
Qed.

(** What an assignment does, by the outcome of its validation. *)
Lemma setter_outcome (f : Field) (value : PyObject) (s : ThermodynamicSystem) :
  match _validate_float (field_name f) value with
  | Ok v => setter f value s = (Ok tt, store f v s)
  | Raise e => setter f value s = (Raise e, s)
  end.
Proof.
  destruct f; simpl;
    unfold set_internal_energy, set_heat_added, set_work_done,
      st_bind, st_lift, st_get, st_put;
    match goal with |- context [_validate_float ?n ?v] =>
      destruct (_validate_float n v) end; reflexivity.
Qed.

Lemma setter_keeps_floats (f : Field) (value : PyObject) (s : ThermodynamicSystem) :
  fields_are_floats s = true ->
  fields_are_floats (snd (setter f value s)) = true.
Proof.
  intros Hs. pose proof (setter_outcome f value s) as H.
  destruct (_validate_float (field_name f) value) as [v|e] eqn:E;
    rewrite H; simpl; [|exact Hs].
  apply validate_float_returns_float in E.
  unfold fields_are_floats in *.
  apply andb_true_iff in Hs as [Hs Hw]. apply andb_true_iff in Hs as [Hi Hq].
  destruct f; simpl; rewrite ?E, ?Hi, ?Hq, ?Hw; reflexivity.
Qed.

Lemma run_keeps_floats (ops : list (Field * PyObject)) (s : ThermodynamicSystem) :
  fields_are_floats s = true ->
  fields_are_floats (run_assignments ops s) = true.
Proof.
  revert s. induction ops as [|[f value] ops IH]; intros s Hs; simpl.
  - exact Hs.
  - apply IH, setter_keeps_floats, Hs.
Qed.

(** ** The claims *)

(** C6. After a successful construction, and after any run of assignments
    to the three properties, whether each assignment returned or raised,
    every field holds a float: the constructor and each setter store only
    what [_validate_float] returns, which is [float(value)]. *)
Theorem field_type_invariant
    (ie q w : PyObject) (s : ThermodynamicSystem)
    (ops : list (Field * PyObject)) (f : Field) :
  __init__ ie q w = Ok s ->
  holds_float (getter f (run_assignments ops s)) = true.
Proof.
  intros Hinit.
  pose proof (run_keeps_floats ops s (init_returns_floats _ _ _ _ Hinit)) as H.
  unfold fields_are_floats in H.
  apply andb_true_iff in H as [H Hw]. apply andb_true_iff in H as [Hi Hq].
  destruct f; assumption.
Qed.

Lemma field_type_invariant_witness :
  __init__ (PyInt 100) (PyInt 50) (PyInt 20) = Ok Fixture.system /\
  holds_float
    (getter HeatAdded
       (run_assignments
          [(HeatAdded, Val (PyStr "wrong type")); (WorkDone, Val (PyInt (-15)));
           (InternalEnergy, Val PyNone)]
          Fixture.system)) = true.
Proof.
  split; [reflexivity|].
  apply (field_type_invariant (PyInt 100) (PyInt 50) (PyInt 20)).
  reflexivity.
Defined.

(** C7. Assigning a value that is neither an int nor a float (nor a bool)
    to any of the three properties raises a [TypeError] whose message starts
    with the name of that property, and leaves the three stored fields as
    they were. *)
Theorem failed_assignment_changes_nothing
    (f : Field) (value : PyObject) (s : ThermodynamicSystem) :
  isinstance_int_float value = false ->
  setter f value s =
    (Raise (Exc TypeError
       (field_name f +:+ " must be a float or an integer, but got "
          +:+ type_name value +:+ ".")), s).
Proof.
  intros Hv. pose proof (setter_outcome f value s) as H.
  now rewrite (validate_float_rejects _ _ Hv) in H.
Qed.

Lemma failed_assignment_changes_nothing_witness :
  setter HeatAdded (Val PyNone) Fixture.system =
    (Raise (Exc TypeError
       "heat_added must be a float or an integer, but got NoneType."),
     Fixture.system).
Proof.
  apply (failed_assignment_changes_nothing HeatAdded (Val PyNone) Fixture.system).
  reflexivity.
Defined.

(** C10. [True] and [False] pass the numeric check, since a bool is an
    int: every setter and the constructor accept them and store [1.0] or
    [0.0]; the calculator's input check accepts them as well. *)
Theorem booleans_are_accepted :
  (forall (b : bool) (f : Field) (s : ThermodynamicSystem),
      setter f (PyBool b) s =
        (Ok tt, store f (PyFloat (if b then Float64.one else Float64.zero)) s))
  /\ (forall b1 b2 b3 : bool,
      __init__ (PyBool b1) (PyBool b2) (PyBool b3) =
        Ok (mkSystem (PyFloat (if b1 then Float64.one else Float64.zero))
                     (PyFloat (if b2 then Float64.one else Float64.zero))
                     (PyFloat (if b3 then Float64.one else Float64.zero))))
  /\ (forall b1 b2 b3 : bool,
      _validate_calculation_inputs (PyBool b1) (PyBool b2) (PyBool b3) = Ok tt).
Proof.
  split; [|split].
  - intros b f s. pose proof (setter_outcome f (PyBool b) s) as H.
    destruct b, f; exact H.
  - intros [] [] []; reflexivity.
  - intros b1 b2 b3. reflexivity.
Qed.

(** C9. An entity built from ints equals the entity built from the same
    numbers as floats; an entity never equals a value that is not an
    entity, and the comparison returns [False] there rather than raising;
    two entities are equal exactly when the three pairs of fields are. *)
Theorem equality_semantics :
  (forall (a b c : Z) (s1 : ThermodynamicSystem),
      __init__ (PyInt a) (PyInt b) (PyInt c) = Ok s1 ->
      exists s2,
        __init__ (PyFloat (Float64.of_Z a)) (PyFloat (Float64.of_Z b))
                 (PyFloat (Float64.of_Z c)) = Ok s2
        /\ __eq__ s1 (Sys s2) = true /\ __eq__ s2 (Sys s1) = true)
  /\ (forall (s : ThermodynamicSystem) (v : PyVal), __eq__ s (Val v) = false)
  /\ (forall s o : ThermodynamicSystem,
      __eq__ s (Sys o) = true <->
      py_eq (internal_energy s) (internal_energy o) = true
      /\ py_eq (heat_added s) (heat_added o) = true
      /\ py_eq (work_done s) (work_done o) = true)
  /\ (forall a b c a' b' c' : float64,
      __eq__ (mkSystem (PyFloat a) (PyFloat b) (PyFloat c))
             (Sys (mkSystem (PyFloat a') (PyFloat b') (PyFloat c'))) = true <->
      Float64.eqb a a' = true /\ Float64.eqb b b' = true
      /\ Float64.eqb c c' = true).
Proof.
  split; [|split; [|split]].
  - intros a b c s1 H.
    unfold __init__ in H. rewrite !validate_float_of_int in H.
    destruct (float_of_int a) as [fa|] eqn:Ea; [|discriminate].
    destruct (float_of_int b) as [fb|] eqn:Eb; [|discriminate].
    destruct (float_of_int c) as [fc|] eqn:Ec; [|discriminate].
    cbn [bind] in H. injection H as <-.
    pose proof (finite_not_nan _ (float_of_int_finite _ _ Ea)) as Na.
    pose proof (finite_not_nan _ (float_of_int_finite _ _ Eb)) as Nb.
    pose proof (finite_not_nan _ (float_of_int_finite _ _ Ec)) as Nc.
    apply float_of_int_value in Ea, Eb, Ec. subst fa fb fc.
    eexists. split; [reflexivity|].
    unfold __eq__, internal_energy, heat_added, work_done.
    cbn [_internal_energy _heat_added _work_done].
    rewrite !py_eq_floats, !float_eqb_refl by assumption.
    split; reflexivity.
  - reflexivity.
  - intros s o. unfold __eq__. rewrite !andb_true_iff. tauto.
  - intros a b c a' b' c'. unfold __eq__. simpl. rewrite !andb_true_iff. tauto.
Qed.

Lemma equality_semantics_witness :
  exists s2,
    __init__ (PyFloat (Float64.of_Z 100)) (PyFloat (Float64.of_Z 50))
             (PyFloat (Float64.of_Z 20)) = Ok s2
    /\ __eq__ Fixture.system (Sys s2) = true
    /\ __eq__ s2 (Sys Fixture.system) = true.
Proof.
  apply (proj1 equality_semantics 100 50 20 Fixture.system). reflexivity.
Defined.

(** ** [from_dict] on a mapping *)

Section FromDict.

Variable d : list (string * PyVal).

Lemma check_key_step (key : string) (rest : list string) :
  check_keys (key :: rest) (PyDict d) =
    match dict_get key d with
    | None =>
        Raise (Exc ValueError
          ("Missing key '" +:+ key +:+ "' in system data for deserialization."))
    | Some v =>
        if isinstance_int_float v then check_keys rest (PyDict d)
        else Raise (Exc TypeError
               ("Value for '" +:+ key +:+ "' must be a float, but got "
                  +:+ type_name v +:+ "."))
    end.
Proof.
  cbn [check_keys py_in py_getitem bind].
  destruct (dict_get key d) as [v|]; cbn [negb bind]; [|reflexivity].
  now destruct (isinstance_int_float v).
Qed.

Lemma check_keys_skip (pre rest : list string) :
  Forall (fun k => numeric_at d k = true) pre ->
  check_keys (pre ++ rest) (PyDict d) = check_keys rest (PyDict d).
Proof.
  induction 1 as [|k pre Hk _ IH]; [reflexivity|].
  rewrite <- app_comm_cons, check_key_step.
  unfold numeric_at in Hk. destruct (dict_get k d) as [v|]; [|discriminate].
  now rewrite Hk.
Qed.

Lemma check_keys_ok (keys : list string) :
  check_keys keys (PyDict d) = Ok tt <->
  Forall (fun k => numeric_at d k = true) keys.
Proof.
  induction keys as [|k keys IH].
  - split; [constructor | reflexivity].
  - rewrite check_key_step, Forall_cons. unfold numeric_at at 1.
    destruct (dict_get k d) as [v|]; [|split; [discriminate | now intros [? _]]].
    destruct (isinstance_int_float v);
      [rewrite IH; tauto | split; [discriminate | now intros [? _]]].
Qed.

Lemma from_dict_checked (ie q w : PyVal) :
  dict_get "internal_energy" d = Some ie ->
  dict_get "heat_added" d = Some q ->
  dict_get "work_done" d = Some w ->
  check_keys required_keys (PyDict d) = Ok tt ->
  from_dict (PyDict d) = __init__ ie q w.
Proof.
  intros Hi Hq Hw Hc. unfold from_dict. rewrite Hc.
  cbn [bind py_getitem]. now rewrite Hi, Hq, Hw.
Qed.

End FromDict.

Lemma check_keys_same_lookups (d d' : list (string * PyVal)) (keys : list string) :
  (forall k, In k keys -> dict_get k d = dict_get k d') ->
  check_keys keys (PyDict d) = check_keys keys (PyDict d').
Proof.
  induction keys as [|k keys IH]; intros H; [reflexivity|].
  rewrite !check_key_step, <- (H k) by now left.
  rewrite IH by (intros k' Hk'; apply H; now right). reflexivity.
Qed.

(** C4. [from_dict] examines [internal_energy], [heat_added] and
    [work_done] in that order and fails at the first key that is absent
    (a [ValueError] naming it, whatever the later keys are) or present with
    a value that is not a number (a [TypeError] naming it); when the three
    keys pass it hands their values to the constructor, it returns an
    entity only in that case, and keys other than the three play no part. *)
Theorem from_dict_checks_keys_in_order (d : list (string * PyVal)) :
  (forall (pre post : list string) (key : string),
      required_keys = pre ++ key :: post ->
      Forall (fun k => numeric_at d k = true) pre ->
      dict_get key d = None ->
      from_dict (PyDict d) =
        Raise (Exc ValueError
          ("Missing key '" +:+ key +:+ "' in system data for deserialization.")))
  /\ (forall (pre post : list string) (key : string) (v : PyVal),
      required_keys = pre ++ key :: post ->
      Forall (fun k => numeric_at d k = true) pre ->
      dict_get key d = Some v ->
      isinstance_int_float v = false ->
      from_dict (PyDict d) =
        Raise (Exc TypeError
          ("Value for '" +:+ key +:+ "' must be a float, but got "
             +:+ type_name v +:+ ".")))
  /\ (forall ie q w : PyVal,
      dict_get "internal_energy" d = Some ie ->
      dict_get "heat_added" d = Some q ->
      dict_get "work_done" d = Some w ->
      isinstance_int_float ie = true ->
      isinstance_int_float q = true ->
      isinstance_int_float w = true ->
      from_dict (PyDict d) = __init__ ie q w)
  /\ (forall s : ThermodynamicSystem,
      from_dict (PyDict d) = Ok s ->
      exists ie q w : PyVal,
        dict_get "internal_energy" d = Some ie
        /\ dict_get "heat_added" d = Some q
        /\ dict_get "work_done" d = Some w
        /\ isinstance_int_float ie = true
        /\ isinstance_int_float q = true
        /\ isinstance_int_float w = true
        /\ __init__ ie q w = Ok s)
  /\ (forall d' : list (string * PyVal),
      (forall k, In k required_keys -> dict_get k d = dict_get k d') ->
      from_dict (PyDict d') = from_dict (PyDict d)).
Proof.
  split; [|split; [|split; [|split]]].
  - intros pre post key Hk Hpre Hmiss. unfold from_dict.
    rewrite Hk, (check_keys_skip d pre (key :: post) Hpre), check_key_step, Hmiss.
    reflexivity.
  - intros pre post key v Hk Hpre Hv Hty. unfold from_dict.
    rewrite Hk, (check_keys_skip d pre (key :: post) Hpre), check_key_step, Hv, Hty.
    reflexivity.
  - intros ie q w Hi Hq Hw Ti Tq Tw.
    apply from_dict_checked; try assumption.
    apply check_keys_ok. unfold required_keys, numeric_at.
    repeat constructor; now rewrite ?Hi, ?Hq, ?Hw.
  - intros s Hs. unfold from_dict in Hs.
    destruct (check_keys required_keys (PyDict d)) as [[]|] eqn:Hc; [|discriminate].
    apply check_keys_ok in Hc. unfold required_keys in Hc.
    apply Forall_cons in Hc as [Hi Hc]. apply Forall_cons in Hc as [Hq Hc].
    apply Forall_cons in Hc as [Hw _]. unfold numeric_at in Hi, Hq, Hw.
    cbn [bind py_getitem] in Hs.
    destruct (dict_get "internal_energy" d) as [ie|]; [|discriminate].
    destruct (dict_get "heat_added" d) as [q|]; [|discriminate].
    destruct (dict_get "work_done" d) as [w|]; [|discriminate].
    exists ie, q, w. cbn [bind] in Hs. repeat split; assumption.
  - intros d' Hsame. unfold from_dict.
    rewrite (check_keys_same_lookups d d' required_keys Hsame).
    cbn [py_getitem].
    now rewrite !Hsame by (unfold required_keys; cbn [In]; tauto).
Qed.

Lemma from_dict_checks_keys_in_order_witness :
  from_dict (PyDict [("internal_energy", PyInt 100)]) =
    Raise (Exc ValueError
      "Missing key 'heat_added' in system data for deserialization.")
  /\ from_dict (PyDict [("work_done", PyInt 20); ("heat_added", PyList []);
                        ("internal_energy", PyInt 100)]) =
    Raise (Exc TypeError "Value for 'heat_added' must be a float, but got list.")
  /\ from_dict (PyDict [("note", PyStr "extra"); ("work_done", PyInt 20);
                        ("heat_added", PyInt 50); ("internal_energy", PyInt 100)]) =
    __init__ (PyInt 100) (PyInt 50) (PyInt 20)
  /\ (exists ie q w : PyVal,
        dict_get "internal_energy"
          [("internal_energy", PyInt 100); ("heat_added", PyInt 50);
           ("work_done", PyInt 20)] = Some ie
        /\ dict_get "heat_added"
             [("internal_energy", PyInt 100); ("heat_added", PyInt 50);
              ("work_done", PyInt 20)] = Some q
        /\ dict_get "work_done"
             [("internal_energy", PyInt 100); ("heat_added", PyInt 50);
              ("work_done", PyInt 20)] = Some w
        /\ isinstance_int_float ie = true
        /\ isinstance_int_float q = true
        /\ isinstance_int_float w = true
        /\ __init__ ie q w = Ok Fixture.system)
  /\ from_dict (PyDict [("internal_energy", PyInt 100); ("heat_added", PyInt 50);
                        ("work_done", PyInt 20)]) =
     from_dict (PyDict [("note", PyStr "extra"); ("work_done", PyInt 20);
                        ("heat_added", PyInt 50); ("internal_energy", PyInt 100)]).
Proof.
  split; [|split; [|split; [|split]]].
  - apply (proj1 (from_dict_checks_keys_in_order _)
             ["internal_energy"] ["work_done"] "heat_added");
      [reflexivity | repeat constructor | reflexivity].
  - apply (proj1 (proj2 (from_dict_checks_keys_in_order _))
             ["internal_energy"] ["work_done"] "heat_added" (PyList []));
      [reflexivity | repeat constructor | reflexivity | reflexivity].
  - apply (proj1 (proj2 (proj2 (from_dict_checks_keys_in_order _))));
      reflexivity.
  - apply (proj1 (proj2 (proj2 (proj2 (from_dict_checks_keys_in_order _))))).
    reflexivity.
  - apply (proj2 (proj2 (proj2 (proj2 (from_dict_checks_keys_in_order _))))).
    intros k [<-|[<-|[<-|[]]]]; reflexivity.
Defined.

(** ** Messages of the [TypeError]s *)

Lemma append_assoc (a b c : string) : (a +:+ b) +:+ c = a +:+ b +:+ c.
Proof.
  induction a as [|x a IH]; [reflexivity|].
  change (String x ((a +:+ b) +:+ c) = String x (a +:+ b +:+ c)).
  now rewrite IH.
Qed.

Lemma contains_after (sub a b post : string) :
  contains sub (a +:+ b +:+ sub +:+ post) = true.
Proof. rewrite <- append_assoc. apply contains_append. Qed.

Lemma must_be_number_identifies (name : string) (value : PyObject) :
  identifies (name +:+ " must be a float or an integer, but got "
                +:+ type_name value +:+ ".") name value = true.
Proof.
  unfold identifies. rewrite contains_head.
  apply (contains_after (type_name value) name
           " must be a float or an integer, but got " ".").
Qed.

Lemma value_for_identifies (key : string) (v : PyVal) :
  identifies ("Value for '" +:+ key +:+ "' must be a float, but got "
                +:+ type_name v +:+ ".") key v = true.
Proof.
  unfold identifies. rewrite contains_append.
  rewrite <- (append_assoc key). apply contains_after.
Qed.

Lemma validate_each_type_error (inputs : list (string * PyObject)) (e : Exception) :
  validate_each inputs = Raise e ->
  exists name value,
    In (name, value) inputs
    /\ isinstance_int_float value = false
    /\ e = Exc TypeError (name +:+ " must be a float or an integer, but got "
                            +:+ type_name value +:+ ".").
Proof.
  induction inputs as [|[name value] rest IH]; simpl; [discriminate|].
  destruct (negb (is_none value) && negb (isinstance_int_float value)) eqn:E.
  - intros [= <-]. exists name, value.
    apply andb_true_iff in E as [_ E]. apply negb_true_iff in E.
    repeat split; [now left | exact E].
  - intros H. destruct (IH H) as (n & v & Hin & Hv & He).
    exists n, v. repeat split; [now right | exact Hv | exact He].
Qed.

Lemma check_keys_type_error (d : list (string * PyVal)) (keys : list string)
    (msg : string) :
  check_keys keys (PyDict d) = Raise (Exc TypeError msg) ->
  exists key v,
    In key keys /\ dict_get key d = Some v /\ isinstance_int_float v = false
    /\ msg = "Value for '" +:+ key +:+ "' must be a float, but got "
               +:+ type_name v +:+ ".".
Proof.
  induction keys as [|k keys IH]; [discriminate|].
  rewrite check_key_step.
  destruct (dict_get k d) as [v|] eqn:Ek; [|discriminate].
  destruct (isinstance_int_float v) eqn:Ev.
  - intros H. destruct (IH H) as (key & v' & Hin & Hrest).
    exists key, v'. split; [now right | exact Hrest].
  - intros [= <-]. exists k, v. repeat split; [now left | exact Ek | exact Ev].
Qed.

Lemma init_numeric_no_type_error (ie q w : PyVal) (msg : string) :
  isinstance_int_float ie = true ->
  isinstance_int_float q = true ->
  isinstance_int_float w = true ->
  __init__ ie q w <> Raise (Exc TypeError msg).
Proof.
  intros Hi Hq Hw H. unfold __init__ in H.
  destruct (_validate_float "internal_energy" ie) as [a|e] eqn:Ea.
  - destruct (_validate_float "heat_added" q) as [b|e] eqn:Eb.
    + destruct (_validate_float "work_done" w) as [c|e] eqn:Ec; [discriminate|].
      cbn [bind] in H. injection H as ->.
      apply validate_float_type_error in Ec as [Ec _]. congruence.
    + cbn [bind] in H. injection H as ->.
      apply validate_float_type_error in Eb as [Eb _]. congruence.
  - cbn [bind] in H. injection H as ->.
    apply validate_float_type_error in Ea as [Ea _]. congruence.
Qed.

(** C8, the claim as stated fails: [calculate_delta_u(None)] raises a
    [TypeError] whose message, "Input must be an instance of
    ThermodynamicSystem.", does not mention [NoneType], the type of the
    value it was given. *)
Lemma delta_u_type_error_omits_type :
  ~ (forall (system : PyObject) (msg : string),
        calculate_delta_u system = Raise (Exc TypeError msg) ->
        contains (type_name system) msg = true).
Proof.
  intros H.
  specialize (H (Val PyNone)
                "Input must be an instance of ThermodynamicSystem." eq_refl).
  vm_compute in H. discriminate.
Qed.

(** C8, amended. The [TypeError]s of the numeric checks, raised by
    [_validate_float] (so by the constructor and the setters), by
    [_validate_calculation_inputs] and by the loop of [from_dict], carry a
    message that contains the name of the field, parameter or key and the
    name of the type of the value.  The instance checks of
    [calculate_delta_u], [save_system_to_json] and [load_system_from_json]
    raise fixed messages instead. *)
Theorem type_errors_of_numeric_checks :
  (forall (name : string) (value : PyObject) (msg : string),
      _validate_float name value = Raise (Exc TypeError msg) ->
      identifies msg name value = true)
  /\ (forall (ie q w : PyObject) (msg : string),
      __init__ ie q w = Raise (Exc TypeError msg) ->
      exists name value,
        In (name, value)
           [("internal_energy", ie); ("heat_added", q); ("work_done", w)]
        /\ isinstance_int_float value = false
        /\ identifies msg name value = true)
  /\ (forall (f : Field) (value : PyObject) (s : ThermodynamicSystem)
             (msg : string),
      fst (setter f value s) = Raise (Exc TypeError msg) ->
      identifies msg (field_name f) value = true)
  /\ (forall (delta_u q w : PyObject) (msg : string),
      _validate_calculation_inputs delta_u q w = Raise (Exc TypeError msg) ->
      exists name value,
        In (name, value)
           [("delta_u", delta_u); ("heat_added", q); ("work_done", w)]
        /\ isinstance_int_float value = false
        /\ identifies msg name value = true)
  /\ (forall (d : list (string * PyVal)) (msg : string),
      from_dict (PyDict d) = Raise (Exc TypeError msg) ->
      exists key v,
        In key required_keys /\ dict_get key d = Some v
        /\ isinstance_int_float v = false
        /\ identifies msg key v = true)
  /\ (forall v : PyVal,
      calculate_delta_u (Val v) =
        Raise (Exc TypeError "Input must be an instance of ThermodynamicSystem."))
  /\ (forall (FS : Type) (os_write : string -> string -> M FS unit)
             (json_dump : PyVal -> Z -> string) (v : PyVal)
             (filename : PyObject) (fs : FS),
      save_system_to_json os_write json_dump (Val v) filename fs =
        (Raise (Exc TypeError
           "Input 'system' must be an instance of ThermodynamicSystem."), fs))
  /\ (forall (FS : Type) (os_write : string -> string -> M FS unit)
             (json_dump : PyVal -> Z -> string) (s : ThermodynamicSystem)
             (filename : PyObject) (fs : FS),
      isinstance_str filename = false ->
      save_system_to_json os_write json_dump (Sys s) filename fs =
        (Raise (Exc TypeError "Input 'filename' must be a string."), fs))
  /\ (forall (FS : Type) (os_read : FS -> string -> result string)
             (json_load : string -> result PyVal)
             (filename : PyObject) (fs : FS),
      isinstance_str filename = false ->
      load_system_from_json os_read json_load filename fs =
        (Raise (Exc TypeError "Input 'filename' must be a string."), fs)).
Proof.
  split; [|split; [|split; [|split; [|split; [|split; [|split; [|split]]]]]]].
  - intros name value msg H.
    apply validate_float_type_error in H as [_ ->].
    apply must_be_number_identifies.
  - intros ie q w msg H. unfold __init__ in H.
    destruct (_validate_float "internal_energy" ie) as [a|e] eqn:Ea.
    + destruct (_validate_float "heat_added" q) as [b|e] eqn:Eb.
      * destruct (_validate_float "work_done" w) as [c|e] eqn:Ec; [discriminate|].
        cbn [bind] in H. injection H as ->.
        apply validate_float_type_error in Ec as [Ec ->].
        exists "work_done", w. cbn [In].
        repeat split; [tauto | exact Ec | apply must_be_number_identifies].
      * cbn [bind] in H. injection H as ->.
        apply validate_float_type_error in Eb as [Eb ->].
        exists "heat_added", q. cbn [In].
        repeat split; [tauto | exact Eb | apply must_be_number_identifies].
    + cbn [bind] in H. injection H as ->.
      apply validate_float_type_error in Ea as [Ea ->].
      exists "internal_energy", ie. cbn [In].
      repeat split; [tauto | exact Ea | apply must_be_number_identifies].
  - intros f value s msg H. pose proof (setter_outcome f value s) as Ho.
    destruct (_validate_float (field_name f) value) as [v|e] eqn:E;
      rewrite Ho in H; [discriminate|].
    cbn [fst] in H. injection H as ->.
    apply validate_float_type_error in E as [_ ->].
    apply must_be_number_identifies.
  - intros delta_u q w msg H. unfold _validate_calculation_inputs in H.
    apply validate_each_type_error in H as (name & value & Hin & Hv & He).
    injection He as ->. exists name, value.
    repeat split; [exact Hin | exact Hv | apply must_be_number_identifies].
  - intros d msg H. unfold from_dict in H.
    destruct (check_keys required_keys (PyDict d)) as [[]|e] eqn:Hc.
    + exfalso. apply check_keys_ok in Hc. unfold required_keys in Hc.
      apply Forall_cons in Hc as [Hi Hc]. apply Forall_cons in Hc as [Hq Hc].
      apply Forall_cons in Hc as [Hw _]. unfold numeric_at in Hi, Hq, Hw.
      cbn [bind py_getitem] in H.
      destruct (dict_get "internal_energy" d) as [ie|]; [|discriminate].
      destruct (dict_get "heat_added" d) as [q|]; [|discriminate].
      destruct (dict_get "work_done" d) as [w|]; [|discriminate].
      cbn [bind] in H.
      exact (init_numeric_no_type_error ie q w msg Hi Hq Hw H).
    + cbn [bind] in H. injection H as ->.
      apply check_keys_type_error in Hc as (key & v & Hin & Hk & Hv & ->).
      exists key, v.
      repeat split; [exact Hin | exact Hk | exact Hv | apply value_for_identifies].
  - reflexivity.
  - reflexivity.
  - intros FS os_write json_dump s filename fs H.
    destruct filename as [[]|]; try discriminate; reflexivity.
  - intros FS os_read json_load filename fs H.
    destruct filename as [[]|]; try discriminate; reflexivity.
Qed.

Lemma type_errors_of_numeric_checks_witness :
  identifies "heat_added must be a float or an integer, but got list."
             "heat_added" (Val (PyList [])) = true
  /\ (exists name value,
        In (name, value)
           [("internal_energy", Val (PyStr "invalid")); ("heat_added", default_arg);
            ("work_done", default_arg)]
        /\ isinstance_int_float value = false
        /\ identifies "internal_energy must be a float or an integer, but got str."
                      name value = true)
  /\ identifies "work_done must be a float or an integer, but got list."
                (field_name WorkDone) (Val (PyList [PyInt 10])) = true
  /\ (exists name value,
        In (name, value)
           [("delta_u", Val (PyFloat Float64.one)); ("heat_added", Val PyNone);
            ("work_done", Val (PyList [PyFloat Float64.one]))]
        /\ isinstance_int_float value = false
        /\ identifies "work_done must be a float or an integer, but got list."
                      name value = true)
  /\ (exists key v,
        In key required_keys
        /\ dict_get key [("internal_energy", PyStr "not a float");
                         ("heat_added", PyInt 50); ("work_done", PyInt 20)] = Some v
        /\ isinstance_int_float v = false
        /\ identifies "Value for 'internal_energy' must be a float, but got str."
                      key v = true)
  /\ save_system_to_json MemFS.write Fixture.json_dump (Sys Fixture.system)
        (Val (PyInt 123)) Fixture.disk =
      (Raise (Exc TypeError "Input 'filename' must be a string."), Fixture.disk)
  /\ load_system_from_json MemFS.read Fixture.json_load (Val PyNone)
        Fixture.disk =
      (Raise (Exc TypeError "Input 'filename' must be a string."), Fixture.disk).
Proof.
  pose proof type_errors_of_numeric_checks
    as (H1 & H2 & H3 & H4 & H5 & _ & _ & H8 & H9).
  split; [|split; [|split; [|split; [|split; [|split]]]]].
  - apply (H1 "heat_added" (Val (PyList []))). reflexivity.
  - apply (H2 (Val (PyStr "invalid")) default_arg default_arg). reflexivity.
  - apply (H3 WorkDone (Val (PyList [PyInt 10])) Fixture.system). reflexivity.
  - apply (H4 (Val (PyFloat Float64.one)) (Val PyNone)
              (Val (PyList [PyFloat Float64.one]))). reflexivity.
  - apply (H5 [("internal_energy", PyStr "not a float");
               ("heat_added", PyInt 50); ("work_done", PyInt 20)]). reflexivity.
  - apply H8. reflexivity.
  - apply H9. reflexivity.
Defined.

(** ** Persistence *)

Lemma from_dict_to_dict (s : ThermodynamicSystem) :
  fields_are_floats s = true -> from_dict (to_dict s) = Ok s.
Proof.
  destruct s as [ie q w]. unfold fields_are_floats. cbn [_internal_energy
    _heat_added _work_done]. intros H.
  apply andb_true_iff in H as [H Hw]. apply andb_true_iff in H as [Hi Hq].
  destruct ie; try discriminate. destruct q; try discriminate.
  destruct w; try discriminate. reflexivity.
Qed.



Section PersistenceProperties.

Variable FS : Type.
Variable os_read : FS -> string -> result string.
Variable os_write : string -> string -> M FS unit.
Variable json_dump : PyVal -> Z -> string.
Variable json_load : string -> result PyVal.

Lemma save_outcome (s : ThermodynamicSystem) (path : string) (fs : FS) :
  save_system_to_json os_write json_dump (Sys s) (PyStr path) fs =
    match os_write path (json_dump (to_dict s) 4) fs with
    | (Ok u, fs') => (Ok u, fs')
    | (Raise e, fs') => (Raise (save_handler path e), fs')
    end.
Proof. reflexivity. Qed.

Lemma save_writes (s : ThermodynamicSystem) (path : string) (fs fs' : FS) :
  os_write path (json_dump (to_dict s) 4) fs = (Ok tt, fs') ->
  save_system_to_json os_write json_dump (Sys s) (PyStr path) fs = (Ok tt, fs').
Proof. intros H. now rewrite save_outcome, H. Qed.

Lemma load_reads (path text : string) (fs : FS) :
  os_read fs path = Ok text ->
  load_system_from_json os_read json_load (PyStr path) fs =
    (match (let! data := json_load text in from_dict data) with
     | Ok system => Ok system
     | Raise e => Raise (load_handler path e)
     end, fs).
Proof.
  intros H. unfold load_system_from_json. rewrite H. cbn [bind].
  now destruct (let! data := json_load text in from_dict data).
Qed.




End PersistenceProperties.




(** ** The First Law calculator *)

Lemma init_inversion (ie q w : PyObject) (s : ThermodynamicSystem) :
  __init__ ie q w = Ok s ->
  exists fi fq fw,
    py_float ie = Ok fi /\ py_float q = Ok fq /\ py_float w = Ok fw
    /\ s = mkSystem (PyFloat fi) (PyFloat fq) (PyFloat fw).
Proof.
  assert (Hv : forall name value v,
             _validate_float name value = Ok v ->
             exists f, py_float value = Ok f /\ v = PyFloat f).
  { intros name value v. unfold _validate_float.
    destruct (negb (isinstance_int_float value)); [discriminate|].
    destruct (py_float value) as [f|]; [|discriminate].
    intros [= <-]. now exists f. }
  unfold __init__.
  destruct (_validate_float "internal_energy" ie) as [a|] eqn:Ea; [|discriminate].
  destruct (_validate_float "heat_added" q) as [b|] eqn:Eb; [|discriminate].
  destruct (_validate_float "work_done" w) as [c|] eqn:Ec; [|discriminate].
  cbn [bind]. intros [= <-].
  destruct (Hv _ _ _ Ea) as (fi & Hi & ->).
  destruct (Hv _ _ _ Eb) as (fq & Hq & ->).
  destruct (Hv _ _ _ Ec) as (fw & Hw & ->).
  now exists fi, fq, fw.
Qed.

Lemma delta_u_of_floats (ie : PyVal) (q w : float64) :
  calculate_delta_u (Sys (mkSystem ie (PyFloat q) (PyFloat w))) =
    Ok (PyFloat (Float64.sub q w)).
Proof. reflexivity. Qed.

Lemma validate_inputs_of_numbers (delta_u q w : PyObject) :
  (is_none delta_u = true \/ isinstance_int_float delta_u = true) ->
  (is_none q = true \/ isinstance_int_float q = true) ->
  (is_none w = true \/ isinstance_int_float w = true) ->
  _validate_calculation_inputs delta_u q w = Ok tt.
Proof.
  unfold _validate_calculation_inputs, validate_each.
  intros [-> | ->] [-> | ->] [-> | ->];
    rewrite ?andb_false_r; reflexivity.
Qed.

(** The entity built from two ints within 2^53 whose difference is within
    2^53: [calculate_delta_u] returns a float equal to that difference. *)
Lemma delta_u_of_small_ints (ie : PyObject) (q w : Z) (s : ThermodynamicSystem) :
  Z.abs q <= 2 ^ 53 -> Z.abs w <= 2 ^ 53 -> Z.abs (q - w) <= 2 ^ 53 ->
  __init__ ie (PyInt q) (PyInt w) = Ok s ->
  exists r, calculate_delta_u (Sys s) = Ok r /\ py_eq r (PyInt (q - w)) = true.
Proof.
  intros Hq Hw Hd Hs.
  apply init_inversion in Hs as (fi & fq & fw & _ & Eq & Ew & ->).
  change (py_float (PyInt q)) with (float_of_int q) in Eq.
  change (py_float (PyInt w)) with (float_of_int w) in Ew.
  rewrite float_of_int_exact in Eq, Ew by assumption.
  injection Eq as <-. injection Ew as <-.
  rewrite delta_u_of_floats. eexists. split; [reflexivity|].
  destruct (of_Z_exact q Hq) as (Vq & Fq & Uq).
  destruct (of_Z_exact w Hw) as (Vw & Fw & Uw).
  destruct (of_Z_exact (q - w) Hd) as (Vd & Fd & Ud).
  assert (He : Float64.eqb (Float64.sub (Float64.of_Z q) (Float64.of_Z w))
                 (Float64.of_Z (q - w)) = true).
  { apply sub_exact; try assumption. rewrite Uq, Uw, Ud. ring. }
  change (Float64.eqb_Z (Float64.sub (Float64.of_Z q) (Float64.of_Z w)) (q - w)
          = true).
  destruct (eqb_exp_ok _ _ He Fd (valid_exp_ok _ Vd)) as [Fr Er].
  apply eqb_Z_of_units; try assumption.
  now rewrite (eqb_units _ _ He).
Qed.

(** C1, the claim as stated fails: the constructor rounds an int to the
    nearest float, so the entity built from [heat_added = 2^53 + 1] and
    [work_done = 0] gives 9007199254740992.0, which is not equal to
    [q - w = 9007199254740993]. *)
Lemma delta_u_of_large_int_is_rounded :
  ~ (forall (q w : PyObject) (s : ThermodynamicSystem),
        is_real_number q = true -> is_real_number w = true ->
        __init__ default_arg q w = Ok s ->
        exists r d,
          calculate_delta_u (Sys s) = Ok r /\ py_sub q w = Ok d
          /\ py_eq r d = true).
Proof.
  intros H.
  destruct (H (Val (PyInt (2 ^ 53 + 1))) (Val (PyInt 0)) _
              eq_refl eq_refl eq_refl)
    as (r & d & Hr & Hd & He).
  vm_compute in Hr. vm_compute in Hd.
  injection Hr as <-. injection Hd as <-.
  vm_compute in He. discriminate.
Qed.

(** C1, amended. [calculate_delta_u] returns the binary64 difference of
    the two stored fields, which are [float(q)] and [float(w)]: this is
    [q - w] itself when [q] and [w] are floats, and a float equal to the
    int [q - w] when [q], [w] and [q - w] are ints within 2^53 in absolute
    value.  [calculate_heat_added(du, w)] returns [du + w] and
    [calculate_work_done(du, q)] returns [q - du], for all numbers. *)
Theorem first_law_formulas :
  (forall (ie q w : PyObject) (s : ThermodynamicSystem),
      __init__ ie q w = Ok s ->
      exists fq fw,
        py_float q = Ok fq /\ py_float w = Ok fw
        /\ calculate_delta_u (Sys s) = Ok (PyFloat (Float64.sub fq fw)))
  /\ (forall (ie : PyObject) (q w : float64) (s : ThermodynamicSystem),
      __init__ ie (PyFloat q) (PyFloat w) = Ok s ->
      calculate_delta_u (Sys s) = py_sub (PyFloat q) (PyFloat w)
      /\ calculate_delta_u (Sys s) = Ok (PyFloat (Float64.sub q w)))
  /\ (forall (ie : PyObject) (q w : Z) (s : ThermodynamicSystem),
      Z.abs q <= 2 ^ 53 -> Z.abs w <= 2 ^ 53 -> Z.abs (q - w) <= 2 ^ 53 ->
      __init__ ie (PyInt q) (PyInt w) = Ok s ->
      exists r,
        calculate_delta_u (Sys s) = Ok r /\ py_eq r (PyInt (q - w)) = true)
  /\ (forall du w : PyObject,
      isinstance_int_float du = true -> isinstance_int_float w = true ->
      calculate_heat_added du w = py_add du w)
  /\ (forall du q : PyObject,
      isinstance_int_float du = true -> isinstance_int_float q = true ->
      calculate_work_done du q = py_sub q du)
  /\ (forall du w : float64,
      calculate_heat_added (PyFloat du) (PyFloat w) =
        Ok (PyFloat (Float64.add du w))
      /\ calculate_work_done (PyFloat du) (PyFloat w) =
        Ok (PyFloat (Float64.sub w du)))
  /\ (forall du w : Z,
      calculate_heat_added (PyInt du) (PyInt w) = Ok (PyInt (du + w))
      /\ calculate_work_done (PyInt du) (PyInt w) = Ok (PyInt (w - du))).
Proof.
  split; [|split; [|split; [|split; [|split; [|split]]]]].
  - intros ie q w s Hs.
    apply init_inversion in Hs as (fi & fq & fw & _ & Eq & Ew & ->).
    exists fq, fw. now rewrite delta_u_of_floats.
  - intros ie q w s Hs.
    apply init_inversion in Hs as (fi & fq & fw & _ & Eq & Ew & ->).
    injection Eq as <-. injection Ew as <-.
    rewrite delta_u_of_floats. split; reflexivity.
  - exact delta_u_of_small_ints.
  - intros du w Hdu Hw. unfold calculate_heat_added.
    rewrite validate_inputs_of_numbers by (try (now right); now left).
    reflexivity.
  - intros du q Hdu Hq. unfold calculate_work_done.
    rewrite validate_inputs_of_numbers by (try (now right); now left).
    reflexivity.
  - intros du w. split; reflexivity.
  - intros du w. split; reflexivity.
Qed.

Lemma first_law_formulas_witness :
  (exists fq fw,
      py_float (PyInt 100) = Ok fq /\ py_float (PyInt 50) = Ok fw
      /\ calculate_delta_u
           (Sys (mkSystem (PyFloat Float64.zero) (PyFloat Fixture.f100)
                          (PyFloat Fixture.f50))) =
         Ok (PyFloat (Float64.sub fq fw)))
  /\ calculate_delta_u
       (Sys (mkSystem (PyFloat Float64.zero) (PyFloat Fixture.f100)
                      (PyFloat Fixture.f50))) =
     Ok (PyFloat (Float64.sub Fixture.f100 Fixture.f50))
  /\ (exists r,
        calculate_delta_u
          (Sys (mkSystem (PyFloat Float64.zero) (PyFloat Fixture.f100)
                         (PyFloat Fixture.f50))) = Ok r
        /\ py_eq r (PyInt (100 - 50)) = true)
  /\ calculate_heat_added (PyInt (-30)) (PyFloat Fixture.f20) =
     py_add (PyInt (-30)) (PyFloat Fixture.f20)
  /\ calculate_work_done (PyBool true) (PyInt 100) =
     py_sub (PyInt 100) (PyBool true).
Proof.
  pose proof first_law_formulas as (H1 & H2 & H3 & H4 & H5 & _).
  split; [|split; [|split; [|split]]].
  - apply (H1 default_arg (PyInt 100) (PyInt 50)). reflexivity.
  - apply (H2 default_arg Fixture.f100 Fixture.f50). reflexivity.
  - apply (H3 default_arg 100 50); [vm_compute; discriminate ..| reflexivity].
  - apply H4; reflexivity.
  - apply H5; reflexivity.
Defined.

(** C3, the claim as stated fails: with [du = 1.0] and [w = 2^53] the sum
    [du + w] rounds to [2^53], so [calculate_delta_u] on the entity gives
    [0.0] instead of [1.0], and [calculate_work_done(du, du + w)] gives
    [2^53 - 1] instead of [2^53]. *)
Lemma round_trip_fails_when_sum_rounds :
  ~ (forall du w : float64,
        Float64.valid du = true -> Float64.valid w = true ->
        Float64.is_finite du = true -> Float64.is_finite w = true ->
        delta_u_round_trip (PyFloat du) (PyFloat w))
  /\ ~ (forall du w : float64,
        Float64.valid du = true -> Float64.valid w = true ->
        Float64.is_finite du = true -> Float64.is_finite w = true ->
        work_done_round_trip (PyFloat du) (PyFloat w)).
Proof.
  split; intros H.
  - destruct (H Float64.one (Float64.of_Z (2 ^ 53))
                eq_refl eq_refl eq_refl eq_refl)
      as (q & s & r & Hq & Hs & Hr & He).
    vm_compute in Hq. injection Hq as <-.
    vm_compute in Hs. injection Hs as <-.
    vm_compute in Hr. injection Hr as <-.
    vm_compute in He. discriminate.
  - destruct (H Float64.one (Float64.of_Z (2 ^ 53))
                eq_refl eq_refl eq_refl eq_refl)
      as (q & r & Hq & Hr & He).
    vm_compute in Hq. injection Hq as <-.
    vm_compute in Hr. injection Hr as <-.
    vm_compute in He. discriminate.
Qed.

Lemma float_round_trips (du w : float64) :
  Float64.valid du = true -> Float64.valid w = true ->
  Float64.is_finite du = true -> Float64.is_finite w = true ->
  Float64.is_finite (Float64.add du w) = true ->
  Float64.units (Float64.add du w) = Float64.units du + Float64.units w ->
  delta_u_round_trip (PyFloat du) (PyFloat w)
  /\ work_done_round_trip (PyFloat du) (PyFloat w).
Proof.
  intros Vdu Vw Fdu Fw Fq Hq.
  destruct (sub_after_exact_add du w Vdu Vw Fdu Fw Fq Hq) as [H1 H2].
  split.
  - exists (PyFloat (Float64.add du w)). eexists. eexists.
    split; [reflexivity|]. split; [reflexivity|]. split; [reflexivity|].
    exact H1.
  - exists (PyFloat (Float64.add du w)). eexists.
    split; [reflexivity|]. split; [reflexivity|]. exact H2.
Qed.

(** The sum of two integer-valued floats within 2^53 is exact when it is
    within 2^53 as well. *)
Lemma add_of_small_ints (a b : Z) :
  Z.abs a <= 2 ^ 53 -> Z.abs b <= 2 ^ 53 -> Z.abs (a + b) <= 2 ^ 53 ->
  Float64.is_finite (Float64.add (Float64.of_Z a) (Float64.of_Z b)) = true
  /\ Float64.units (Float64.add (Float64.of_Z a) (Float64.of_Z b)) =
     Float64.units (Float64.of_Z a) + Float64.units (Float64.of_Z b).
Proof.
  intros Ha Hb Hab.
  destruct (of_Z_exact a Ha) as (Va & Fa & Ua).
  destruct (of_Z_exact b Hb) as (Vb & Fb & Ub).
  destruct (of_Z_exact (a + b) Hab) as (Vs & Fs & Us).
  assert (He : Float64.eqb (Float64.add (Float64.of_Z a) (Float64.of_Z b))
                 (Float64.of_Z (a + b)) = true).
  { apply add_exact; try assumption. rewrite Ua, Ub, Us. ring. }
  split.
  - exact (proj1 (eqb_exp_ok _ _ He Fs (valid_exp_ok _ Vs))).
  - rewrite (eqb_units _ _ He), Ua, Ub, Us. ring.
Qed.

(** C3, amended. For finite floats [du] and [w] whose sum is computed
    without rounding (the float [du + w] is finite and is the exact sum),
    [calculate_delta_u] on the entity with [heat_added = du + w] and
    [work_done = w] returns a float equal to [du], and
    [calculate_work_done(du, du + w)] returns a float equal to [w]; this
    covers the integer-valued floats [du], [w] with [du], [w] and [du + w]
    within 2^53 in absolute value.  For Python ints,
    [calculate_work_done(du, calculate_heat_added(du, w))] is equal to [w]
    for all [du] and [w], and the round trip through the entity gives a
    float equal to [du] when [du], [w] and [du + w] are within 2^53. *)
Theorem round_trip_when_sum_is_exact :
  (forall du w : float64,
      Float64.valid du = true -> Float64.valid w = true ->
      Float64.is_finite du = true -> Float64.is_finite w = true ->
      Float64.is_finite (Float64.add du w) = true ->
      Float64.units (Float64.add du w) = Float64.units du + Float64.units w ->
      delta_u_round_trip (PyFloat du) (PyFloat w)
      /\ work_done_round_trip (PyFloat du) (PyFloat w))
  /\ (forall a b : Z,
      Z.abs a <= 2 ^ 53 -> Z.abs b <= 2 ^ 53 -> Z.abs (a + b) <= 2 ^ 53 ->
      delta_u_round_trip (PyFloat (Float64.of_Z a)) (PyFloat (Float64.of_Z b))
      /\ work_done_round_trip (PyFloat (Float64.of_Z a))
           (PyFloat (Float64.of_Z b)))
  /\ (forall du w : Z, work_done_round_trip (PyInt du) (PyInt w))
  /\ (forall du w : Z,
      Z.abs du <= 2 ^ 53 -> Z.abs w <= 2 ^ 53 -> Z.abs (du + w) <= 2 ^ 53 ->
      delta_u_round_trip (PyInt du) (PyInt w)).
Proof.
  split; [|split; [|split]].
  - exact float_round_trips.
  - intros a b Ha Hb Hab.
    destruct (of_Z_exact a Ha) as (Va & Fa & _).
    destruct (of_Z_exact b Hb) as (Vb & Fb & _).
    destruct (add_of_small_ints a b Ha Hb Hab) as [Fs Us].
    now apply float_round_trips.
  - intros du w. exists (PyInt (du + w)), (PyInt (du + w - du)).
    split; [reflexivity|]. split; [reflexivity|].
    cbn. apply Z.eqb_eq. lia.
  - intros du w Hdu Hw Hq.
    assert (Hs : exists s, __init__ default_arg (PyInt (du + w)) (PyInt w) = Ok s).
    { unfold __init__. rewrite !validate_float_of_int, !float_of_int_exact
        by assumption. eexists. reflexivity. }
    destruct Hs as [s Hs].
    destruct (delta_u_of_small_ints default_arg (du + w) w s) as (r & Hr & He);
      try assumption.
    { now replace (du + w - w) with du by lia. }
    exists (PyInt (du + w)), s, r. replace (du + w - w) with du in He by lia.
    repeat split; assumption.
Qed.

Lemma round_trip_when_sum_is_exact_witness :
  (delta_u_round_trip (PyFloat (Float64.of_Z 75)) (PyFloat (Float64.of_Z 25))
   /\ work_done_round_trip (PyFloat (Float64.of_Z 75)) (PyFloat (Float64.of_Z 25)))
  /\ (delta_u_round_trip (PyFloat (Float64.of_Z (-30))) (PyFloat (Float64.of_Z 20))
      /\ work_done_round_trip (PyFloat (Float64.of_Z (-30)))
           (PyFloat (Float64.of_Z 20)))
  /\ delta_u_round_trip (PyInt (-30)) (PyInt 20).
Proof.
  pose proof round_trip_when_sum_is_exact as (Hf & Hz & _ & Hi).
  split; [|split].
  - apply (Hf (Float64.of_Z 75) (Float64.of_Z 25)); vm_compute; reflexivity.
  - apply (Hz (-30) 20); vm_compute; discriminate.
  - apply (Hi (-30) 20); vm_compute; discriminate.
Defined.

(** * Further properties *)

(** ** Further properties of the entity *)

Lemma validate_float_ok (name : string) (value : PyObject) (f : float64) :
  isinstance_int_float value = true -> py_float value = Ok f ->
  _validate_float name value = Ok (PyFloat f).
Proof. unfold _validate_float. now intros -> ->. Qed.

Lemma validate_float_raise_cases (name : string) (value : PyObject) (e : Exception) :
  _validate_float name value = Raise e ->
  (isinstance_int_float value = false
   /\ e = Exc TypeError (name +:+ " must be a float or an integer, but got "
                           +:+ type_name value +:+ "."))
  \/ (exists z, as_number value = Some (NInt z)
      /\ Float64.is_finite (Float64.of_Z z) = false
      /\ e = Exc OverflowError "int too large to convert to float").
Proof.
  unfold _validate_float, isinstance_int_float, py_float.
  destruct (as_number value) as [[z|f]|]; cbn [negb bind].
  - unfold float_of_int.
    destruct (Float64.is_finite (Float64.of_Z z)) eqn:E; [discriminate|].
    cbn [bind]. intros [= <-]. right. now exists z.
  - discriminate.
  - intros [= <-]. now left.
Qed.

Lemma setter_success (f : Field) (value : PyObject) (s : ThermodynamicSystem)
    (x : float64) :
  isinstance_int_float value = true -> py_float value = Ok x ->
  setter f value s = (Ok tt, store f (PyFloat x) s).
Proof.
  intros Hv Hx. pose proof (setter_outcome f value s) as H.
  now rewrite (validate_float_ok _ _ _ Hv Hx) in H.
Qed.

Lemma getter_store_same (f : Field) (v : PyVal) (s : ThermodynamicSystem) :
  getter f (store f v s) = v.
Proof. now destruct f. Qed.

Lemma getter_store_other (f g : Field) (v : PyVal) (s : ThermodynamicSystem) :
  f <> g -> getter g (store f v s) = getter g s.
Proof. destruct f, g; intros H; try reflexivity; now destruct H. Qed.

(** X1. The constructor validates its arguments in the order
    [internal_energy], [heat_added], [work_done] and stops at the first one
    that fails, whatever the later ones are.  An argument that is not a
    number raises the [TypeError] that names it, provided every argument
    before it is a number that converts to a float; and whatever the first
    failing validation raises, the [TypeError] or the [OverflowError] of an
    int too large for a float, is what the constructor raises. *)
Theorem constructor_reports_first_invalid_argument :
  (forall ie q w : PyObject,
      isinstance_int_float ie = false ->
      __init__ ie q w =
        Raise (Exc TypeError
          ("internal_energy must be a float or an integer, but got "
             +:+ type_name ie +:+ ".")))
  /\ (forall (ie q w : PyObject) (fi : float64),
      isinstance_int_float ie = true -> py_float ie = Ok fi ->
      isinstance_int_float q = false ->
      __init__ ie q w =
        Raise (Exc TypeError
          ("heat_added must be a float or an integer, but got "
             +:+ type_name q +:+ ".")))
  /\ (forall (ie q w : PyObject) (fi fq : float64),
      isinstance_int_float ie = true -> py_float ie = Ok fi ->
      isinstance_int_float q = true -> py_float q = Ok fq ->
      isinstance_int_float w = false ->
      __init__ ie q w =
        Raise (Exc TypeError
          ("work_done must be a float or an integer, but got "
             +:+ type_name w +:+ ".")))
  /\ (forall (ie q w : PyObject) (e : Exception),
      _validate_float "internal_energy" ie = Raise e ->
      __init__ ie q w = Raise e)
  /\ (forall (ie q w : PyObject) (a : PyVal) (e : Exception),
      _validate_float "internal_energy" ie = Ok a ->
      _validate_float "heat_added" q = Raise e ->
      __init__ ie q w = Raise e)
  /\ (forall (ie q w : PyObject) (a b : PyVal) (e : Exception),
      _validate_float "internal_energy" ie = Ok a ->
      _validate_float "heat_added" q = Ok b ->
      _validate_float "work_done" w = Raise e ->
      __init__ ie q w = Raise e).
Proof.
  split; [|split; [|split; [|split; [|split]]]].
  - intros ie q w Hi. unfold __init__.
    now rewrite (validate_float_rejects _ _ Hi).
  - intros ie q w fi Hi Ei Hq. unfold __init__.
    rewrite (validate_float_ok _ _ _ Hi Ei). cbn [bind].
    now rewrite (validate_float_rejects _ _ Hq).
  - intros ie q w fi fq Hi Ei Hq Eq Hw. unfold __init__.
    rewrite (validate_float_ok _ _ _ Hi Ei), (validate_float_ok _ _ _ Hq Eq).
    cbn [bind]. now rewrite (validate_float_rejects _ _ Hw).
  - intros ie q w e Hi. unfold __init__. now rewrite Hi.
  - intros ie q w a e Hi Hq. unfold __init__. rewrite Hi. cbn [bind].
    now rewrite Hq.
  - intros ie q w a b e Hi Hq Hw. unfold __init__. rewrite Hi, Hq.
    cbn [bind]. now rewrite Hw.
Qed.

Lemma constructor_reports_first_invalid_argument_witness :
  __init__ (Val (PyStr "invalid")) (Val (PyList [])) (Val PyNone) =
    Raise (Exc TypeError
      "internal_energy must be a float or an integer, but got str.")
  /\ __init__ (Val (PyInt 1)) (Val (PyList [])) (Val PyNone) =
    Raise (Exc TypeError
      "heat_added must be a float or an integer, but got list.")
  /\ __init__ (Val (PyInt 1)) (Val (PyBool true)) (Val PyNone) =
    Raise (Exc TypeError
      "work_done must be a float or an integer, but got NoneType.")
  /\ __init__ (Val (PyInt (2 ^ 1024))) (Val (PyStr "x")) (Val (PyInt 0)) =
    Raise (Exc OverflowError "int too large to convert to float")
  /\ __init__ (Val (PyInt 0)) (Val (PyInt (2 ^ 1024))) (Val (PyStr "x")) =
    Raise (Exc OverflowError "int too large to convert to float")
  /\ __init__ (Val (PyStr "x")) (Val (PyInt (2 ^ 1024))) (Val (PyInt 0)) =
    Raise (Exc TypeError
      "internal_energy must be a float or an integer, but got str.")
  /\ __init__ (Val (PyInt 0)) (Val (PyInt 0)) (Val (PyInt (2 ^ 1024))) =
    Raise (Exc OverflowError "int too large to convert to float").
Proof.
  pose proof constructor_reports_first_invalid_argument
    as (H1 & H2 & H3 & H4 & H5 & H6).
  split; [|split; [|split; [|split; [|split; [|split]]]]].
  - apply (H1 (Val (PyStr "invalid")) (Val (PyList [])) (Val PyNone)).
    reflexivity.
  - apply (H2 (Val (PyInt 1)) (Val (PyList [])) (Val PyNone) Float64.one);
      reflexivity.
  - apply (H3 (Val (PyInt 1)) (Val (PyBool true)) (Val PyNone)
              Float64.one Float64.one); reflexivity.
  - apply (H4 (Val (PyInt (2 ^ 1024))) (Val (PyStr "x")) (Val (PyInt 0))).
    vm_compute. reflexivity.
  - apply (H5 (Val (PyInt 0)) (Val (PyInt (2 ^ 1024))) (Val (PyStr "x"))
              (PyFloat Float64.zero)); vm_compute; reflexivity.
  - apply (H4 (Val (PyStr "x")) (Val (PyInt (2 ^ 1024))) (Val (PyInt 0))).
    vm_compute. reflexivity.
  - apply (H6 (Val (PyInt 0)) (Val (PyInt 0)) (Val (PyInt (2 ^ 1024)))
              (PyFloat Float64.zero) (PyFloat Float64.zero));
      vm_compute; reflexivity.
Defined.

(** X2. A setter that raises, for whatever reason, leaves the entity as
    it was; it raises either the [TypeError] of a value that is not a
    number, or the [OverflowError] of an int too large for a float. *)
Theorem raising_setter_changes_nothing
    (f : Field) (value : PyObject) (s : ThermodynamicSystem) (e : Exception) :
  fst (setter f value s) = Raise e ->
  snd (setter f value s) = s
  /\ ((isinstance_int_float value = false
       /\ e = Exc TypeError
                (field_name f +:+ " must be a float or an integer, but got "
                   +:+ type_name value +:+ "."))
      \/ (exists z, as_number value = Some (NInt z)
          /\ Float64.is_finite (Float64.of_Z z) = false
          /\ e = Exc OverflowError "int too large to convert to float")).
Proof.
  intros H. pose proof (setter_outcome f value s) as Ho.
  destruct (_validate_float (field_name f) value) as [v|e'] eqn:E;
    rewrite Ho in H |- *; [discriminate|].
  cbn [fst] in H. injection H as ->. split; [reflexivity|].
  now apply validate_float_raise_cases in E.
Qed.

Lemma raising_setter_changes_nothing_witness :
  snd (setter WorkDone (Val (PyInt (2 ^ 1024))) Fixture.system) = Fixture.system
  /\ ((isinstance_int_float (Val (PyInt (2 ^ 1024))) = false
       /\ Exc OverflowError "int too large to convert to float" =
          Exc TypeError
            (field_name WorkDone +:+ " must be a float or an integer, but got "
               +:+ type_name (Val (PyInt (2 ^ 1024))) +:+ "."))
      \/ (exists z, as_number (Val (PyInt (2 ^ 1024))) = Some (NInt z)
          /\ Float64.is_finite (Float64.of_Z z) = false
          /\ Exc OverflowError "int too large to convert to float" =
             Exc OverflowError "int too large to convert to float")).
Proof.
  apply (raising_setter_changes_nothing WorkDone (Val (PyInt (2 ^ 1024)))
           Fixture.system).
  vm_compute. reflexivity.
Defined.

(** X3. A setter given a number stores [float(value)] in its own field
    and leaves the two other fields as they were. *)
Theorem setter_stores_float_and_keeps_other_fields
    (f : Field) (value : PyObject) (x : float64) (s : ThermodynamicSystem) :
  isinstance_int_float value = true -> py_float value = Ok x ->
  exists s',
    setter f value s = (Ok tt, s')
    /\ getter f s' = PyFloat x
    /\ (forall g : Field, g <> f -> getter g s' = getter g s).
Proof.
  intros Hv Hx. exists (store f (PyFloat x) s).
  split; [now apply setter_success|]. split.
  - apply getter_store_same.
  - intros g Hg. apply getter_store_other. congruence.
Qed.

Lemma setter_stores_float_and_keeps_other_fields_witness :
  exists s',
    setter HeatAdded (Val (PyInt 0)) Fixture.system = (Ok tt, s')
    /\ getter HeatAdded s' = PyFloat Float64.zero
    /\ (forall g : Field, g <> HeatAdded -> getter g s' = getter g Fixture.system).
Proof.
  apply (setter_stores_float_and_keeps_other_fields HeatAdded (Val (PyInt 0))
           Float64.zero Fixture.system); reflexivity.
Defined.

Lemma assign_state (f : Field) (value : PyObject) (s : ThermodynamicSystem) :
  snd (setter f value s) =
    match _validate_float (field_name f) value with
    | Ok v => store f v s
    | Raise _ => s
    end.
Proof.
  pose proof (setter_outcome f value s) as H.
  destruct (_validate_float (field_name f) value); now rewrite H.
Qed.

Lemma store_commute (f g : Field) (a b : PyVal) (s : ThermodynamicSystem) :
  f <> g -> store g b (store f a s) = store f a (store g b s).
Proof. destruct f, g; intros H; try reflexivity; now destruct H. Qed.

Lemma store_overwrite (f : Field) (a b : PyVal) (s : ThermodynamicSystem) :
  store f b (store f a s) = store f b s.
Proof. now destruct f. Qed.

(** X4. Assignments to two different fields commute; of two assignments
    to the same field the second one wins when it is accepted, and is
    without effect when it is rejected. *)
Theorem assignments_commute_and_overwrite :
  (forall (f g : Field) (a b : PyObject) (s : ThermodynamicSystem),
      f <> g ->
      run_assignments [(f, a); (g, b)] s = run_assignments [(g, b); (f, a)] s)
  /\ (forall (f : Field) (a b : PyObject) (x : float64) (s : ThermodynamicSystem),
      isinstance_int_float b = true -> py_float b = Ok x ->
      run_assignments [(f, a); (f, b)] s = run_assignments [(f, b)] s)
  /\ (forall (f : Field) (a b : PyObject) (s : ThermodynamicSystem),
      isinstance_int_float b = false ->
      run_assignments [(f, a); (f, b)] s = run_assignments [(f, a)] s).
Proof.
  split; [|split].
  - intros f g a b s Hfg. cbn [run_assignments]. rewrite !assign_state.
    destruct (_validate_float (field_name f) a) as [va|];
      destruct (_validate_float (field_name g) b) as [vb|]; try reflexivity.
    now apply store_commute.
  - intros f a b x s Hb Hx. cbn [run_assignments]. rewrite !assign_state.
    rewrite (validate_float_ok _ _ _ Hb Hx).
    destruct (_validate_float (field_name f) a); [apply store_overwrite | reflexivity].
  - intros f a b s Hb. cbn [run_assignments]. rewrite (assign_state f b).
    now rewrite (validate_float_rejects _ _ Hb).
Qed.

Lemma assignments_commute_and_overwrite_witness :
  run_assignments [(HeatAdded, Val (PyInt 200)); (WorkDone, Val (PyInt 70))]
    Fixture.system =
  run_assignments [(WorkDone, Val (PyInt 70)); (HeatAdded, Val (PyInt 200))]
    Fixture.system
  /\ run_assignments [(HeatAdded, Val (PyInt 200)); (HeatAdded, Val (PyInt 70))]
       Fixture.system =
     run_assignments [(HeatAdded, Val (PyInt 70))] Fixture.system
  /\ run_assignments [(HeatAdded, Val (PyInt 200)); (HeatAdded, Val PyNone)]
       Fixture.system =
     run_assignments [(HeatAdded, Val (PyInt 200))] Fixture.system.
Proof.
  pose proof assignments_commute_and_overwrite as (H1 & H2 & H3).
  split; [|split].
  - apply H1. discriminate.
  - apply (H2 HeatAdded (Val (PyInt 200)) (Val (PyInt 70)) (Float64.of_Z 70));
      reflexivity.
  - apply H3. reflexivity.
Defined.

Lemma from_dict_inversion (d : list (string * PyVal)) (s : ThermodynamicSystem) :
  from_dict (PyDict d) = Ok s ->
  exists ie q w : PyVal,
    dict_get "internal_energy" d = Some ie
    /\ dict_get "heat_added" d = Some q
    /\ dict_get "work_done" d = Some w
    /\ __init__ ie q w = Ok s.
Proof.
  intros Hs. unfold from_dict in Hs.
  destruct (check_keys required_keys (PyDict d)) as [[]|] eqn:Hc; [|discriminate].
  cbn [bind py_getitem] in Hs.
  destruct (dict_get "internal_energy" d) as [ie|]; [|discriminate].
  destruct (dict_get "heat_added" d) as [q|]; [|discriminate].
  destruct (dict_get "work_done" d) as [w|]; [|discriminate].
  exists ie, q, w. cbn [bind] in Hs. repeat split; assumption.
Qed.

(** X5. For an entity built by the constructor and changed by any run
    of assignments, [from_dict(to_dict())] gives the entity back. *)
Theorem to_dict_from_dict_round_trip
    (ie q w : PyObject) (s : ThermodynamicSystem)
    (ops : list (Field * PyObject)) :
  __init__ ie q w = Ok s ->
  from_dict (to_dict (run_assignments ops s)) = Ok (run_assignments ops s).
Proof.
  intros Hs. apply from_dict_to_dict, run_keeps_floats.
  exact (init_returns_floats _ _ _ _ Hs).
Qed.

Lemma to_dict_from_dict_round_trip_witness :
  from_dict (to_dict (run_assignments [(WorkDone, Val (PyInt (-15)))]
                        Fixture.system)) =
    Ok (run_assignments [(WorkDone, Val (PyInt (-15)))] Fixture.system).
Proof.
  apply (to_dict_from_dict_round_trip (PyInt 100) (PyInt 50) (PyInt 20)).
  reflexivity.
Defined.

(** X6. When [from_dict] accepts a mapping, the entity it returns holds
    the floats of the three values, so [to_dict] of it is the mapping
    reduced to the three keys, in their order, with float values; and
    [from_dict] of that mapping is the same entity again. *)
Theorem from_dict_normalises_the_mapping
    (d : list (string * PyVal)) (s : ThermodynamicSystem) :
  from_dict (PyDict d) = Ok s ->
  exists (ie q w : PyVal) (fi fq fw : float64),
    dict_get "internal_energy" d = Some ie /\ py_float ie = Ok fi
    /\ dict_get "heat_added" d = Some q /\ py_float q = Ok fq
    /\ dict_get "work_done" d = Some w /\ py_float w = Ok fw
    /\ to_dict s = PyDict [("internal_energy", PyFloat fi);
                           ("heat_added", PyFloat fq);
                           ("work_done", PyFloat fw)]
    /\ from_dict (to_dict s) = Ok s.
Proof.
  intros Hs. pose proof Hs as (ie & q & w & Hi & Hq & Hw & Hinit)%from_dict_inversion.
  apply init_inversion in Hinit as (fi & fq & fw & Ei & Eq & Ew & ->).
  exists ie, q, w, fi, fq, fw.
  split; [exact Hi|]. split; [exact Ei|]. split; [exact Hq|].
  split; [exact Eq|]. split; [exact Hw|]. split; [exact Ew|].
  split; [reflexivity|]. now apply from_dict_to_dict.
Qed.

Lemma from_dict_normalises_the_mapping_witness :
  exists (ie q w : PyVal) (fi fq fw : float64),
    dict_get "internal_energy"
      [("note", PyStr "extra"); ("work_done", PyBool true);
       ("heat_added", PyInt 50); ("internal_energy", PyFloat Fixture.f100)]
      = Some ie /\ py_float ie = Ok fi
    /\ dict_get "heat_added"
         [("note", PyStr "extra"); ("work_done", PyBool true);
          ("heat_added", PyInt 50); ("internal_energy", PyFloat Fixture.f100)]
       = Some q /\ py_float q = Ok fq
    /\ dict_get "work_done"
         [("note", PyStr "extra"); ("work_done", PyBool true);
          ("heat_added", PyInt 50); ("internal_energy", PyFloat Fixture.f100)]
       = Some w /\ py_float w = Ok fw
    /\ to_dict (mkSystem (PyFloat Fixture.f100) (PyFloat Fixture.f50)
                         (PyFloat Float64.one)) =
       PyDict [("internal_energy", PyFloat fi); ("heat_added", PyFloat fq);
               ("work_done", PyFloat fw)]
    /\ from_dict (to_dict (mkSystem (PyFloat Fixture.f100) (PyFloat Fixture.f50)
                                    (PyFloat Float64.one))) =
       Ok (mkSystem (PyFloat Fixture.f100) (PyFloat Fixture.f50)
                    (PyFloat Float64.one)).
Proof.
  apply (from_dict_normalises_the_mapping
           [("note", PyStr "extra"); ("work_done", PyBool true);
            ("heat_added", PyInt 50); ("internal_energy", PyFloat Fixture.f100)]).
  reflexivity.
Defined.

Lemma from_dict_non_mapping (data : PyObject) :
  is_mapping data = false ->
  exists msg,
    from_dict data = Raise (Exc TypeError msg)
    \/ (from_dict data = Raise (Exc ValueError msg)
        /\ msg = "Missing key 'internal_energy' in system data for deserialization.").
Proof.
  intros Hd. unfold from_dict, required_keys. cbn [check_keys].
  destruct data as [[| | | |text|l|d]|s]; try discriminate Hd;
    cbn [py_in bind];
    try (eexists; left; reflexivity).
  - destruct (contains "internal_energy" text); cbn [negb bind py_getitem];
      eexists; [left | right]; eauto.
  - destruct (existsb (py_eq (PyStr "internal_energy")) l);
      cbn [negb bind py_getitem]; eexists; [left | right]; eauto.
Qed.

(** X7. [from_dict] never returns an entity for an input that is not a
    mapping: it raises a [TypeError], or the [ValueError] of a missing
    [internal_energy].  So a file whose JSON text is not an object makes
    [load_system_from_json] raise one of these two, behind the prefix that
    names the path. *)
Theorem from_dict_rejects_non_mappings (data : PyObject) :
  is_mapping data = false ->
  (exists msg,
      from_dict data = Raise (Exc TypeError msg)
      \/ (from_dict data = Raise (Exc ValueError msg)
          /\ msg = "Missing key 'internal_energy' in system data for deserialization."))
  /\ (forall (FS : Type) (os_read : FS -> string -> result string)
             (json_load : string -> result PyVal) (path text : string)
             (v : PyVal) (fs : FS),
      data = Val v ->
      os_read fs path = Ok text ->
      json_load text = Ok v ->
      exists cls msg,
        (cls = TypeError \/ cls = ValueError)
        /\ load_system_from_json os_read json_load (PyStr path) fs =
           (Raise (Exc cls ("Error parsing system data from " +:+ path
                              +:+ ": " +:+ msg)), fs)).
Proof.
  intros Hd. split; [now apply from_dict_non_mapping|].
  intros FS os_read json_load path text v fs -> Hf Hj.
  rewrite (load_reads FS os_read json_load path text fs Hf), Hj. cbn [bind].
  destruct (from_dict_non_mapping (Val v) Hd) as [msg [H | [H _]]];
    rewrite H.
  - exists TypeError, msg. split; [now left | reflexivity].
  - exists ValueError, msg. split; [now right | reflexivity].
Qed.

Lemma from_dict_rejects_non_mappings_witness :
  (exists msg,
      from_dict (Val (PyList [PyInt 1; PyInt 2])) = Raise (Exc TypeError msg)
      \/ (from_dict (Val (PyList [PyInt 1; PyInt 2])) = Raise (Exc ValueError msg)
          /\ msg = "Missing key 'internal_energy' in system data for deserialization."))
  /\ (exists cls msg,
        (cls = TypeError \/ cls = ValueError)
        /\ load_system_from_json MemFS.read (fun _ => Ok (PyInt 5))
             (PyStr "five.json") (<["five.json" := MemFS.File "5"]> ∅) =
           (Raise (Exc cls ("Error parsing system data from " +:+ "five.json"
                              +:+ ": " +:+ msg)),
            <["five.json" := MemFS.File "5"]> ∅)).
Proof.
  split.
  - apply (from_dict_rejects_non_mappings (Val (PyList [PyInt 1; PyInt 2]))).
    reflexivity.
  - apply (proj2 (from_dict_rejects_non_mappings (Val (PyInt 5)) eq_refl)
             MemFS.t MemFS.read (fun _ => Ok (PyInt 5)) "five.json" "5"
             (PyInt 5));
      [reflexivity | vm_compute; reflexivity | reflexivity].
Defined.

(** ** Equality of entities *)

Lemma float_eqb_zeros (a b : float64) :
  Float64.is_zero a = true -> Float64.is_zero b = true -> Float64.eqb a b = true.
Proof. destruct a, b; try discriminate; reflexivity. Qed.

Lemma float_eqb_sym (a b : float64) : Float64.eqb a b = Float64.eqb b a.
Proof.
  destruct (Float64.eqb a b) eqn:E1, (Float64.eqb b a) eqn:E2; try reflexivity.
  - pose proof E1 as [->|[Ha Hb]]%eqb_cases; [congruence|].
    now rewrite float_eqb_zeros in E2.
  - pose proof E2 as [->|[Hb Ha]]%eqb_cases; [congruence|].
    now rewrite float_eqb_zeros in E1.
Qed.

Lemma float_eqb_trans (a b c : float64) :
  Float64.eqb a b = true -> Float64.eqb b c = true -> Float64.eqb a c = true.
Proof.
  intros H1 H2.
  pose proof H1 as [->|[Ha Hb]]%eqb_cases; [exact H2|].
  pose proof H2 as [<-|[_ Hc]]%eqb_cases; [exact H1|].
  now apply float_eqb_zeros.
Qed.

Lemma float_eqb_refl_iff (a : float64) :
  Float64.eqb a a = true <-> Float64.is_nan a = false.
Proof.
  split; [|apply float_eqb_refl].
  now destruct a.
Qed.

(** X8. On entities with float fields [__eq__] is symmetric and
    transitive, and an entity is equal to itself exactly when none of its
    fields is NaN. *)
Theorem entity_equality_on_float_fields :
  (forall a b c a' b' c' : float64,
      __eq__ (mkSystem (PyFloat a) (PyFloat b) (PyFloat c))
             (Sys (mkSystem (PyFloat a') (PyFloat b') (PyFloat c'))) =
      __eq__ (mkSystem (PyFloat a') (PyFloat b') (PyFloat c'))
             (Sys (mkSystem (PyFloat a) (PyFloat b) (PyFloat c))))
  /\ (forall s o t : ThermodynamicSystem,
      fields_are_floats s = true -> fields_are_floats o = true ->
      fields_are_floats t = true ->
      __eq__ s (Sys o) = true -> __eq__ o (Sys t) = true ->
      __eq__ s (Sys t) = true)
  /\ (forall s : ThermodynamicSystem,
      fields_are_floats s = true ->
      (__eq__ s (Sys s) = true <-> fields_are_reals s = true)).
Proof.
  split; [|split].
  - intros a b c a' b' c'. unfold __eq__, internal_energy, heat_added, work_done.
    cbn [_internal_energy _heat_added _work_done]. rewrite !py_eq_floats.
    now rewrite (float_eqb_sym a a'), (float_eqb_sym b b'), (float_eqb_sym c c').
  - intros [a b c] [a' b' c'] [a'' b'' c''].
    unfold fields_are_floats, __eq__, internal_energy, heat_added, work_done.
    cbn [_internal_energy _heat_added _work_done].
    destruct a, b, c; try discriminate; intros _.
    destruct a', b', c'; try discriminate; intros _.
    destruct a'', b'', c''; try discriminate; intros _.
    rewrite !py_eq_floats, !andb_true_iff.
    intros [[H1 H2] H3] [[H1' H2'] H3'].
    repeat split; eapply float_eqb_trans; eassumption.
  - intros [a b c].
    unfold fields_are_floats, fields_are_reals, __eq__, internal_energy,
      heat_added, work_done.
    cbn [_internal_energy _heat_added _work_done].
    destruct a, b, c; try discriminate; intros _.
    cbn [holds_real]. rewrite !py_eq_floats, !andb_true_iff, !negb_true_iff.
    rewrite !float_eqb_refl_iff. reflexivity.
Qed.

Lemma entity_equality_on_float_fields_witness :
  __eq__ Fixture.system (Sys Fixture.system) = true
  /\ (__eq__ (mkSystem (PyFloat S754_nan) (PyFloat Fixture.f50) (PyFloat Fixture.f20))
        (Sys (mkSystem (PyFloat S754_nan) (PyFloat Fixture.f50) (PyFloat Fixture.f20)))
      = true <->
      fields_are_reals
        (mkSystem (PyFloat S754_nan) (PyFloat Fixture.f50) (PyFloat Fixture.f20))
      = true).
Proof.
  pose proof entity_equality_on_float_fields as (_ & H2 & H3).
  split.
  - apply (H2 Fixture.system Fixture.system Fixture.system); reflexivity.
  - apply H3. reflexivity.
Defined.

(** ** Further properties of the calculator *)

Lemma delta_u_on_float_fields (s : ThermodynamicSystem) :
  fields_are_floats s = true ->
  exists q w,
    heat_added s = PyFloat q /\ work_done s = PyFloat w
    /\ calculate_delta_u (Sys s) = Ok (PyFloat (Float64.sub q w)).
Proof.
  destruct s as [ie q w]. unfold fields_are_floats.
  cbn [_internal_energy _heat_added _work_done].
  destruct ie, q, w; try discriminate. intros _.
  eexists. eexists. repeat split.
Qed.

(** X9. On an entity built by the constructor, after any run of
    assignments, [calculate_delta_u] returns a float and does not raise;
    an assignment to [internal_energy] does not change its result. *)
Theorem delta_u_never_raises_on_an_entity
    (ie q w : PyObject) (s : ThermodynamicSystem)
    (ops : list (Field * PyObject)) (value : PyObject) :
  __init__ ie q w = Ok s ->
  (exists x, calculate_delta_u (Sys (run_assignments ops s)) = Ok (PyFloat x))
  /\ calculate_delta_u
       (Sys (run_assignments (ops ++ [(InternalEnergy, value)]) s)) =
     calculate_delta_u (Sys (run_assignments ops s)).
Proof.
  intros Hs.
  pose proof (run_keeps_floats ops s (init_returns_floats _ _ _ _ Hs)) as Hf.
  split.
  - destruct (delta_u_on_float_fields _ Hf) as (a & b & _ & _ & H). eauto.
  - assert (Happ : forall l1 l2 t,
               run_assignments (l1 ++ l2) t = run_assignments l2 (run_assignments l1 t)).
    { induction l1 as [|[g v] l1 IH]; intros l2 t; [reflexivity|].
      cbn [app run_assignments]. apply IH. }
    rewrite Happ. cbn [run_assignments]. rewrite assign_state.
    destruct (_validate_float (field_name InternalEnergy) value); reflexivity.
Qed.

Lemma delta_u_never_raises_on_an_entity_witness :
  (exists x,
      calculate_delta_u
        (Sys (run_assignments [(HeatAdded, Val (PyInt 200)); (WorkDone, Val PyNone)]
                Fixture.system)) = Ok (PyFloat x))
  /\ calculate_delta_u
       (Sys (run_assignments
               ([(HeatAdded, Val (PyInt 200)); (WorkDone, Val PyNone)]
                ++ [(InternalEnergy, Val (PyInt 7))]) Fixture.system)) =
     calculate_delta_u
       (Sys (run_assignments [(HeatAdded, Val (PyInt 200)); (WorkDone, Val PyNone)]
               Fixture.system)).
Proof.
  apply (delta_u_never_raises_on_an_entity (PyInt 100) (PyInt 50) (PyInt 20)).
  reflexivity.
Defined.

Lemma float_sub_diag (x : float64) :
  Float64.is_finite x = true -> Float64.sub x x = Float64.zero.
Proof.
  destruct x as [s| | |s m e]; try discriminate; intros _.
  - now destruct s.
  - unfold Float64.sub, SFsub. rewrite Z.sub_diag. reflexivity.
Qed.

Lemma float_sub_zero (x : float64) : Float64.sub x Float64.zero = x.
Proof. destruct x as [[]|[]| |s m e]; reflexivity. Qed.

Lemma py_float_real (v : PyObject) (x : float64) :
  is_real_number v = true -> py_float v = Ok x -> Float64.is_finite x = true.
Proof.
  unfold is_real_number, py_float.
  destruct (as_number v) as [[z|f]|]; try discriminate.
  - intros _. apply float_of_int_finite.
  - now intros H [= <-].
Qed.

(** X10. When heat and work are the same real number
    [calculate_delta_u] returns exactly [0.0]; when [work_done] is left at
    its default it returns exactly the stored heat. *)
Theorem delta_u_of_equal_heat_and_work_and_of_no_work :
  (forall (ie v : PyObject) (s : ThermodynamicSystem),
      is_real_number v = true ->
      __init__ ie v v = Ok s ->
      calculate_delta_u (Sys s) = Ok (PyFloat Float64.zero))
  /\ (forall (ie q : PyObject) (s : ThermodynamicSystem),
      __init__ ie q default_arg = Ok s ->
      calculate_delta_u (Sys s) = Ok (heat_added s)).
Proof.
  split.
  - intros ie v s Hv Hs.
    apply init_inversion in Hs as (fi & fq & fw & _ & Eq & Ew & ->).
    rewrite Eq in Ew. injection Ew as <-.
    rewrite delta_u_of_floats, float_sub_diag; [reflexivity|].
    exact (py_float_real v fq Hv Eq).
  - intros ie q s Hs.
    apply init_inversion in Hs as (fi & fq & fw & _ & Eq & Ew & ->).
    injection Ew as <-.
    now rewrite delta_u_of_floats, float_sub_zero.
Qed.

Lemma delta_u_of_equal_heat_and_work_and_of_no_work_witness :
  calculate_delta_u
    (Sys (mkSystem (PyFloat Float64.zero) (PyFloat Fixture.f100)
                   (PyFloat Fixture.f100))) = Ok (PyFloat Float64.zero)
  /\ calculate_delta_u
       (Sys (mkSystem (PyFloat Float64.zero) (PyFloat (Float64.of_Z 200))
                      (PyFloat Float64.zero))) =
     Ok (heat_added (mkSystem (PyFloat Float64.zero) (PyFloat (Float64.of_Z 200))
                              (PyFloat Float64.zero))).
Proof.
  pose proof delta_u_of_equal_heat_and_work_and_of_no_work as [H1 H2].
  split.
  - apply (H1 default_arg (Val (PyInt 100))); reflexivity.
  - apply (H2 default_arg (Val (PyInt 200))). reflexivity.
Defined.

Lemma float_add_comm (x y : float64) : Float64.add x y = Float64.add y x.
Proof.
  destruct x as [sx|sx| |sx mx ex], y as [sy|sy| |sy my ey];
    try reflexivity; try (now destruct sx, sy).
  unfold Float64.add, SFadd. now rewrite Z.min_comm, Z.add_comm.
Qed.

Lemma py_add_comm_numbers (a b : PyObject) :
  isinstance_int_float a = true -> isinstance_int_float b = true ->
  py_add a b = py_add b a.
Proof.
  unfold isinstance_int_float.
  assert (H : forall u v,
             as_number u <> None -> as_number v <> None ->
             py_add u v = py_arith "+" Z.add Float64.add u v).
  { intros [[]|] [[]|]; cbn [as_number]; intros Hu Hv; try reflexivity;
      try (now destruct Hu); now destruct Hv. }
  intros Ha Hb.
  rewrite (H a b), (H b a)
    by (destruct (as_number a), (as_number b); discriminate).
  unfold py_arith.
  destruct (as_number a) as [[x|x]|], (as_number b) as [[y|y]|];
    try discriminate.
  - now rewrite Z.add_comm.
  - destruct (float_of_int x); cbn [bind]; [|reflexivity].
    now rewrite float_add_comm.
  - destruct (float_of_int y); cbn [bind]; [|reflexivity].
    now rewrite float_add_comm.
  - now rewrite float_add_comm.
Qed.

(** X11. [calculate_heat_added] gives the same outcome when its two
    numeric arguments are exchanged. *)
Theorem heat_added_is_symmetric (delta_u w : PyObject) :
  isinstance_int_float delta_u = true -> isinstance_int_float w = true ->
  calculate_heat_added delta_u w = calculate_heat_added w delta_u.
Proof.
  intros Hd Hw. unfold calculate_heat_added.
  rewrite !validate_inputs_of_numbers by (try (now right); now left).
  cbn [bind]. now apply py_add_comm_numbers.
Qed.

Lemma heat_added_is_symmetric_witness :
  calculate_heat_added (Val (PyInt (-30))) (Val (PyFloat Fixture.f20)) =
  calculate_heat_added (Val (PyFloat Fixture.f20)) (Val (PyInt (-30))).
Proof.
  apply heat_added_is_symmetric; reflexivity.
Defined.

(** X13. [calculate_heat_added] and [calculate_work_done] check
    [delta_u] first: a [delta_u] that is neither [None] nor a number is
    reported whatever the other argument is; the other argument is reported
    (as [work_done], respectively [heat_added]) only when [delta_u]
    passes. *)
Theorem calculator_reports_first_invalid_parameter :
  (forall delta_u other : PyObject,
      is_none delta_u = false -> isinstance_int_float delta_u = false ->
      calculate_heat_added delta_u other =
        Raise (Exc TypeError
          ("delta_u must be a float or an integer, but got "
             +:+ type_name delta_u +:+ "."))
      /\ calculate_work_done delta_u other =
        Raise (Exc TypeError
          ("delta_u must be a float or an integer, but got "
             +:+ type_name delta_u +:+ ".")))
  /\ (forall delta_u other : PyObject,
      is_none delta_u = true \/ isinstance_int_float delta_u = true ->
      is_none other = false -> isinstance_int_float other = false ->
      calculate_heat_added delta_u other =
        Raise (Exc TypeError
          ("work_done must be a float or an integer, but got "
             +:+ type_name other +:+ "."))
      /\ calculate_work_done delta_u other =
        Raise (Exc TypeError
          ("heat_added must be a float or an integer, but got "
             +:+ type_name other +:+ "."))).
Proof.
  split.
  - intros delta_u other Hn Hd.
    unfold calculate_heat_added, calculate_work_done,
      _validate_calculation_inputs, validate_each.
    rewrite Hn, Hd. split; reflexivity.
  - intros delta_u other Hd Hn Ho.
    unfold calculate_heat_added, calculate_work_done,
      _validate_calculation_inputs, validate_each.
    rewrite Hn, Ho.
    destruct Hd as [-> | ->]; rewrite ?andb_false_r; split; reflexivity.
Qed.

Lemma calculator_reports_first_invalid_parameter_witness :
  (calculate_heat_added (Val (PyStr "invalid")) (Val (PyList [])) =
     Raise (Exc TypeError
       ("delta_u must be a float or an integer, but got "
          +:+ type_name (Val (PyStr "invalid")) +:+ "."))
   /\ calculate_work_done (Val (PyStr "invalid")) (Val (PyList [])) =
     Raise (Exc TypeError
       ("delta_u must be a float or an integer, but got "
          +:+ type_name (Val (PyStr "invalid")) +:+ ".")))
  /\ (calculate_heat_added (Val (PyInt 10)) (Val (PyList [])) =
        Raise (Exc TypeError
          ("work_done must be a float or an integer, but got "
             +:+ type_name (Val (PyList [])) +:+ "."))
      /\ calculate_work_done (Val (PyInt 10)) (Val (PyList [])) =
        Raise (Exc TypeError
          ("heat_added must be a float or an integer, but got "
             +:+ type_name (Val (PyList [])) +:+ "."))).
Proof.
  pose proof calculator_reports_first_invalid_parameter as [H1 H2].
  split.
  - apply H1; reflexivity.
  - apply H2; [now right | reflexivity | reflexivity].
Defined.

(** X14. [None] passes the calculator's parameter check, so a [None]
    argument is rejected only by the arithmetic itself: the [TypeError] is
    the interpreter's "unsupported operand" error, which does not name the
    parameter. *)
Theorem none_passes_the_parameter_check (other : PyObject) :
  isinstance_int_float other = true ->
  _validate_calculation_inputs PyNone PyNone PyNone = Ok tt
  /\ calculate_heat_added PyNone other = Raise (unsupported_operand "+" PyNone other)
  /\ calculate_heat_added other PyNone = Raise (unsupported_operand "+" other PyNone)
  /\ calculate_work_done PyNone other = Raise (unsupported_operand "-" other PyNone)
  /\ calculate_work_done other PyNone = Raise (unsupported_operand "-" PyNone other)
  /\ (forall msg,
        calculate_heat_added PyNone other = Raise (Exc TypeError msg) ->
        contains "delta_u" msg = false /\ contains "NoneType" msg = true).
Proof.
  intros Ho.
  assert (Hn : forall a b c, is_none a = true \/ isinstance_int_float a = true ->
                 is_none b = true \/ isinstance_int_float b = true ->
                 is_none c = true \/ isinstance_int_float c = true ->
                 _validate_calculation_inputs a b c = Ok tt)
    by (intros; now apply validate_inputs_of_numbers).
  unfold calculate_heat_added, calculate_work_done.
  rewrite !Hn by (try (now right); now left). cbn [bind].
  destruct other as [[|b|z|f|t|l|d]|s]; try discriminate Ho;
    (do 5 (split; [reflexivity|]); intros msg [= <-]; split; reflexivity).
Qed.

Lemma none_passes_the_parameter_check_witness :
  calculate_heat_added PyNone (Val (PyInt 5)) =
    Raise (Exc TypeError "unsupported operand type(s) for +: 'NoneType' and 'int'")
  /\ calculate_work_done (Val (PyFloat Fixture.f20)) PyNone =
    Raise (Exc TypeError "unsupported operand type(s) for -: 'NoneType' and 'float'").
Proof.
  split.
  - apply (none_passes_the_parameter_check (Val (PyInt 5))). reflexivity.
  - apply (none_passes_the_parameter_check (Val (PyFloat Fixture.f20))). reflexivity.
Defined.

(** X12. An int of absolute value at most 2^53 is stored as a float
    equal to it, by the validation helper and hence by every setter. *)
Theorem small_ints_are_stored_exactly (n : Z) :
  Z.abs n <= 2 ^ 53 ->
  exists x : float64,
    (forall name, _validate_float name (PyInt n) = Ok (PyFloat x))
    /\ (forall (f : Field) (s : ThermodynamicSystem),
          setter f (PyInt n) s = (Ok tt, store f (PyFloat x) s))
    /\ py_eq (PyFloat x) (PyInt n) = true.
Proof.
  intros Hn. exists (Float64.of_Z n).
  destruct (of_Z_exact n Hn) as (Vn & Fn & Un).
  assert (Hv : forall name, _validate_float name (PyInt n) = Ok (PyFloat (Float64.of_Z n))).
  { intros name. now rewrite validate_float_of_int, float_of_int_exact. }
  split; [exact Hv|]. split.
  - intros f s. pose proof (setter_outcome f (PyInt n) s) as H.
    now rewrite Hv in H.
  - change (Float64.eqb_Z (Float64.of_Z n) n = true).
    apply eqb_Z_of_units; [exact Fn | exact (valid_exp_ok _ Vn) | exact Un].
Qed.

Lemma small_ints_are_stored_exactly_witness :
  exists x : float64,
    (forall name, _validate_float name (PyInt (2 ^ 53)) = Ok (PyFloat x))
    /\ (forall (f : Field) (s : ThermodynamicSystem),
          setter f (PyInt (2 ^ 53)) s = (Ok tt, store f (PyFloat x) s))
    /\ py_eq (PyFloat x) (PyInt (2 ^ 53)) = true.
Proof.
  apply (small_ints_are_stored_exactly (2 ^ 53)). vm_compute. discriminate.
Defined.

(** ** Further properties of the persistence functions *)


Section MorePersistenceProperties.

Variable FS : Type.
Variable os_read : FS -> string -> result string.
Variable os_write : string -> string -> M FS unit.
Variable json_dump : PyVal -> Z -> string.
Variable json_load : string -> result PyVal.


(** X16. A save to a path that [open] refuses with an [OSError] raises an
    [OSError] whose message names the path and carries the system's
    reason, and leaves the file system as the refusal left it. *)
Theorem save_to_blocked_path_fails
    (s : ThermodynamicSystem) (path reason : string) (fs fs' : FS) :
  os_write path (json_dump (to_dict s) 4) fs =
    (Raise (Exc OSError reason), fs') ->
  save_system_to_json os_write json_dump (Sys s) (PyStr path) fs =
    (Raise (Exc OSError
       ("Failed to save system to " +:+ path +:+ ": " +:+ reason)), fs').
Proof. intros H. now rewrite save_outcome, H. Qed.

(** X17. In the file system in memory: after a successful save, a second
    save to the same path succeeds too, and leaves the file system as if
    only the second had been made. *)
Theorem second_save_wins
    (s1 s2 : ThermodynamicSystem) (path : string) (fs fs1 : MemFS.t) :
  save_system_to_json MemFS.write json_dump (Sys s1) (PyStr path) fs
    = (Ok tt, fs1) ->
  exists fs2,
    save_system_to_json MemFS.write json_dump (Sys s2) (PyStr path) fs1
      = (Ok tt, fs2)
    /\ save_system_to_json MemFS.write json_dump (Sys s2) (PyStr path) fs
      = (Ok tt, fs2).
Proof.
  rewrite !save_outcome. unfold MemFS.write, MemFS.t in *.
  destruct (contains MemFS.nul path); [discriminate|].
  destruct (fs !! path) as [[text|reason|reason|]|] eqn:E; intros [= <-];
    rewrite lookup_insert_eq; eexists; (split; [reflexivity|]);
    now rewrite insert_insert_eq.
Qed.





End MorePersistenceProperties.

Lemma save_to_blocked_path_fails_witness :
  save_system_to_json MemFS.write Fixture.json_dump (Sys Fixture.system)
    (PyStr "/data") Fixture.busy_disk =
    (Raise (Exc OSError
       ("Failed to save system to " +:+ "/data" +:+ ": "
          +:+ "[Errno 21] Is a directory: '/data'")),
     Fixture.busy_disk).
Proof.
  apply (save_to_blocked_path_fails MemFS.t MemFS.write Fixture.json_dump
           Fixture.system "/data" "[Errno 21] Is a directory: '/data'").
  vm_compute. reflexivity.
Defined.

Lemma second_save_wins_witness :
  exists fs2,
    save_system_to_json MemFS.write Fixture.json_dump
      (Sys (mkSystem (PyFloat Float64.zero) (PyFloat Float64.zero)
                     (PyFloat Float64.zero)))
      (PyStr Fixture.path)
      (<[Fixture.path := MemFS.File Fixture.doc_saved]> Fixture.disk)
      = (Ok tt, fs2)
    /\ save_system_to_json MemFS.write Fixture.json_dump
         (Sys (mkSystem (PyFloat Float64.zero) (PyFloat Float64.zero)
                        (PyFloat Float64.zero)))
         (PyStr Fixture.path) Fixture.disk = (Ok tt, fs2).
Proof.
  apply (second_save_wins Fixture.json_dump Fixture.system).
  vm_compute. reflexivity.
Defined.





(** ** Overflow of [float(n)] *)

Lemma shr_1_m (mrs : shr_record) :
  0 <= shr_m mrs -> shr_m (shr_1 mrs) = shr_m mrs / 2.
Proof.
  destruct mrs as [m r s]. cbn [shr_m]. intros Hm.
  rewrite <- Z.div2_div.
  destruct m as [|[p|p|]|p]; try reflexivity; lia.
Qed.

Lemma shr_iter_m (n : positive) (mrs : shr_record) :
  0 <= shr_m mrs ->
  shr_m (SpecFloat.iter_pos shr_1 n mrs) = shr_m mrs / 2 ^ Zpos n.
Proof.
  rewrite iter_pos_iter. revert mrs.
  induction n as [|n IH] using Pos.peano_ind; intros mrs Hm.
  - cbn [Pos.iter]. now rewrite shr_1_m.
  - rewrite Pos.iter_succ_r, IH.
    + rewrite shr_1_m by exact Hm.
      rewrite Pos2Z.inj_succ, Z.pow_succ_r by lia.
      rewrite Z.div_div by (try apply Z.pow_pos_nonneg; lia). reflexivity.
    + rewrite shr_1_m by exact Hm. apply Z.div_pos; lia.
Qed.

Lemma shr_record_of_loc_m (m : Z) (l : location) :
  shr_m (shr_record_of_loc m l) = m.
Proof. destruct l as [|[]]; reflexivity. Qed.

Lemma Zdigits2_log2 (m : Z) : 0 < m -> Zdigits2 m = Z.log2 m + 1.
Proof. destruct m; try lia. intros _. apply digits_log2. Qed.

(** Shifting a mantissa of at least 53 digits down to 53 digits leaves at
    least 2^52 and raises the exponent by the number of digits dropped. *)
Lemma shr_fexp_large (m e : Z) (l : location) :
  2 ^ 52 <= m -> -1074 <= e ->
  2 ^ 52 <= shr_m (fst (shr_fexp 53 1024 m e l))
  /\ snd (shr_fexp 53 1024 m e l) = e + (Z.log2 m - 52).
Proof.
  intros H52 He.
  assert (P52 : 0 < 2 ^ 52) by (apply Z.pow_pos_nonneg; lia).
  assert (Hm : 0 < m) by lia.
  assert (Hl : 52 <= Z.log2 m).
  { rewrite <- (Z.log2_pow2 52) by lia. now apply Z.log2_le_mono. }
  unfold shr_fexp. rewrite (Zdigits2_log2 m Hm). unfold fexp, emin.
  replace (Z.max (Z.log2 m + 1 + e - 53) (3 - 1024 - 53) - e)
    with (Z.log2 m - 52) by lia.
  destruct (Z.log2 m - 52) as [|k|k] eqn:E; cbn [shr fst snd].
  - rewrite shr_record_of_loc_m. split; lia.
  - split; [|lia].
    rewrite shr_iter_m by (rewrite shr_record_of_loc_m; lia).
    rewrite shr_record_of_loc_m.
    pose proof (Z.log2_spec m Hm) as [Hlo _].
    replace (Z.log2 m) with (52 + Zpos k) in Hlo by lia.
    rewrite Z.pow_add_r in Hlo by lia.
    apply Z.div_le_lower_bound; [apply Z.pow_pos_nonneg; lia | lia].
  - lia.
Qed.

Lemma round_nearest_even_ge (m : Z) (l : location) :
  m <= round_nearest_even m l.
Proof.
  destruct l as [|[]]; cbn [round_nearest_even]; try lia.
  destruct (Z.even m); lia.
Qed.

Lemma binary_round_aux_overflows (s : bool) (m e : Z) :
  2 ^ 52 <= m -> -1074 <= e -> 972 <= e + (Z.log2 m - 52) ->
  Float64.is_finite (binary_round_aux 53 1024 s m e loc_Exact) = false.
Proof.
  intros H52 He Hbig. unfold binary_round_aux.
  assert (P52 : 0 < 2 ^ 52) by (apply Z.pow_pos_nonneg; lia).
  pose proof (shr_fexp_large m e loc_Exact H52 He) as [H1 H1e].
  destruct (shr_fexp 53 1024 m e loc_Exact) as [mrs1 e1]. cbn [fst snd] in H1, H1e.
  pose proof (round_nearest_even_ge (shr_m mrs1) (loc_of_shr_record mrs1)) as Hr.
  set (m2 := round_nearest_even (shr_m mrs1) (loc_of_shr_record mrs1)) in *.
  assert (H52' : 2 ^ 52 <= m2) by lia.
  assert (Hl2 : 52 <= Z.log2 m2).
  { rewrite <- (Z.log2_pow2 52) by lia. now apply Z.log2_le_mono. }
  pose proof (shr_fexp_large m2 e1 loc_Exact H52' ltac:(lia)) as [H2 H2e].
  destruct (shr_fexp 53 1024 m2 e1 loc_Exact) as [mrs2 e2]. cbn [fst snd] in H2, H2e.
  destruct (shr_m mrs2) as [|p|p]; try lia.
  assert (E : (e2 <=? 1024 - 53) = false) by (apply Z.leb_gt; lia).
  now rewrite E.
Qed.

Lemma of_Z_overflows (z : Z) :
  2 ^ 1024 <= Z.abs z -> Float64.is_finite (Float64.of_Z z) = false.
Proof.
  intros Hz.
  assert (Hcore : forall (s : bool) (p : positive),
             2 ^ 1024 <= Zpos p ->
             Float64.is_finite (binary_round 53 1024 s p 0) = false).
  { intros s p Hp. unfold binary_round.
    assert (Hl : 1024 <= Z.log2 (Zpos p)).
    { rewrite <- (Z.log2_pow2 1024) by lia. now apply Z.log2_le_mono. }
    assert (H52 : 2 ^ 52 <= Zpos p).
    { transitivity (2 ^ 1024); [|exact Hp]. apply Z.pow_le_mono_r; lia. }
    rewrite digits_log2. unfold shl_align, fexp, emin.
    replace (Z.max (Z.log2 (Zpos p) + 1 + 0 - 53) (3 - 1024 - 53) - 0)
      with (Z.log2 (Zpos p) - 52) by lia.
    destruct (Z.log2 (Zpos p) - 52) as [|k|k] eqn:E; try lia.
    apply binary_round_aux_overflows; lia. }
  destruct z as [|p|p].
  - simpl in Hz. lia.
  - apply (Hcore false p). lia.
  - apply (Hcore true p). lia.
Qed.

(** X22. An int of absolute value 2^1024 or more is too large for a
    float: the validation helper and every setter raise an [OverflowError]
    for it, the setter leaving the entity as it was.  The constructor
    raises it when the int is the first argument that fails validation:
    as first argument whatever the others are, as second or third argument
    when the arguments before it are accepted.  [calculate_heat_added] and
    [calculate_work_done] raise it when the other argument is a float, the
    int in either position, whereas [calculate_heat_added] of two ints
    returns their int sum. *)
Theorem huge_ints_raise_overflow_error (z : Z) :
  2 ^ 1024 <= Z.abs z ->
  (forall name,
      _validate_float name (PyInt z) =
        Raise (Exc OverflowError "int too large to convert to float"))
  /\ (forall (f : Field) (s : ThermodynamicSystem),
      setter f (PyInt z) s =
        (Raise (Exc OverflowError "int too large to convert to float"), s))
  /\ (forall q w : PyObject,
      __init__ (PyInt z) q w =
        Raise (Exc OverflowError "int too large to convert to float"))
  /\ (forall (ie w : PyObject) (a : PyVal),
      _validate_float "internal_energy" ie = Ok a ->
      __init__ ie (PyInt z) w =
        Raise (Exc OverflowError "int too large to convert to float"))
  /\ (forall (ie q : PyObject) (a b : PyVal),
      _validate_float "internal_energy" ie = Ok a ->
      _validate_float "heat_added" q = Ok b ->
      __init__ ie q (PyInt z) =
        Raise (Exc OverflowError "int too large to convert to float"))
  /\ (forall x : float64,
      calculate_heat_added (PyInt z) (PyFloat x) =
        Raise (Exc OverflowError "int too large to convert to float"))
  /\ (forall x : float64,
      calculate_heat_added (PyFloat x) (PyInt z) =
        Raise (Exc OverflowError "int too large to convert to float"))
  /\ (forall x : float64,
      calculate_work_done (PyInt z) (PyFloat x) =
        Raise (Exc OverflowError "int too large to convert to float"))
  /\ (forall x : float64,
      calculate_work_done (PyFloat x) (PyInt z) =
        Raise (Exc OverflowError "int too large to convert to float"))
  /\ (forall y : Z, calculate_heat_added (PyInt z) (PyInt y) = Ok (PyInt (z + y))).
Proof.
  intros Hz. pose proof (of_Z_overflows z Hz) as Hinf.
  assert (Hf : float_of_int z =
               Raise (Exc OverflowError "int too large to convert to float")).
  { unfold float_of_int. now rewrite Hinf. }
  assert (Hv : forall name,
             _validate_float name (PyInt z) =
               Raise (Exc OverflowError "int too large to convert to float")).
  { intros name. now rewrite validate_float_of_int, Hf. }
  split; [exact Hv|].
  split; [|split; [|split; [|split; [|split; [|split; [|split; [|split]]]]]]].
  - intros f s. pose proof (setter_outcome f (PyInt z) s) as H.
    now rewrite Hv in H.
  - intros q w. unfold __init__. now rewrite Hv.
  - intros ie w a Hi. unfold __init__. rewrite Hi. cbn [bind].
    now rewrite Hv.
  - intros ie q a b Hi Hq. unfold __init__. rewrite Hi, Hq. cbn [bind].
    now rewrite Hv.
  - intros x.
    change (calculate_heat_added (PyInt z) (PyFloat x))
      with (let! fx := float_of_int z in Ok (PyFloat (Float64.add fx x))).
    now rewrite Hf.
  - intros x.
    change (calculate_heat_added (PyFloat x) (PyInt z))
      with (let! fz := float_of_int z in Ok (PyFloat (Float64.add x fz))).
    now rewrite Hf.
  - intros x.
    change (calculate_work_done (PyInt z) (PyFloat x))
      with (let! fz := float_of_int z in Ok (PyFloat (Float64.sub x fz))).
    now rewrite Hf.
  - intros x.
    change (calculate_work_done (PyFloat x) (PyInt z))
      with (let! fz := float_of_int z in Ok (PyFloat (Float64.sub fz x))).
    now rewrite Hf.
  - reflexivity.
Qed.

Lemma huge_ints_raise_overflow_error_witness :
  setter HeatAdded (PyInt (- 2 ^ 1024)) Fixture.system =
    (Raise (Exc OverflowError "int too large to convert to float"),
     Fixture.system)
  /\ __init__ (PyInt 0) (PyInt (- 2 ^ 1024)) (PyStr "x") =
    Raise (Exc OverflowError "int too large to convert to float")
  /\ calculate_work_done (PyFloat Float64.one) (PyInt (- 2 ^ 1024)) =
    Raise (Exc OverflowError "int too large to convert to float").
Proof.
  assert (Hz : 2 ^ 1024 <= Z.abs (- 2 ^ 1024)) by (vm_compute; discriminate).
  pose proof (huge_ints_raise_overflow_error (- 2 ^ 1024) Hz)
    as (_ & H2 & _ & H4 & _ & _ & _ & _ & H9 & _).
  split; [|split].
  - apply H2.
  - apply (H4 (PyInt 0) (PyStr "x") (PyFloat Float64.zero)).
    vm_compute. reflexivity.
  - apply H9.
Defined.

Lemma eq_self_only_without_nan (s : ThermodynamicSystem) :
  fields_are_floats s = true -> fields_are_reals s = false ->
  __eq__ s (Sys s) = false.
Proof.
  destruct s as [a b c].
  unfold fields_are_floats, fields_are_reals, __eq__, internal_energy,
    heat_added, work_done.
  cbn [_internal_energy _heat_added _work_done].
  destruct a as [| | |a| | |], b as [| | |b| | |], c as [| | |c| | |];
    try discriminate; intros _.
  cbn [holds_real]. rewrite !py_eq_floats.
  destruct a, b, c; cbn [Float64.is_nan negb andb]; try discriminate;
    intros _; rewrite ?andb_false_r; reflexivity.
Qed.

Section NaNRoundTrip.

Variable FS : Type.
Variable os_read : FS -> string -> result string.
Variable os_write : string -> string -> M FS unit.
Variable json_dump : PyVal -> Z -> string.
Variable json_load : string -> result PyVal.

(** X21. An entity with a NaN field survives a save and a load unchanged,
    field for field, but is not equal to what is loaded: [__eq__] compares
    NaN with NaN and returns [False].  The path is one at which the
    operating system accepts the write of the document and then reads it
    back, and the JSON library is assumed to read back the document it
    wrote. *)
Theorem nan_field_defeats_round_trip_equality
    (s : ThermodynamicSystem) (path : string) (fs fs1 : FS) :
  fields_are_floats s = true -> fields_are_reals s = false ->
  json_load (json_dump (to_dict s) 4) = Ok (to_dict s) ->
  os_write path (json_dump (to_dict s) 4) fs = (Ok tt, fs1) ->
  os_read fs1 path = Ok (json_dump (to_dict s) 4) ->
  save_system_to_json os_write json_dump (Sys s) (PyStr path) fs = (Ok tt, fs1)
  /\ load_system_from_json os_read json_load (PyStr path) fs1 = (Ok s, fs1)
  /\ __eq__ s (Sys s) = false.
Proof.
  intros Hfl Hnan Hjson Hwrite Hread.
  split; [now apply save_writes|].
  split; [|now apply eq_self_only_without_nan].
  rewrite (load_reads FS os_read json_load path _ fs1 Hread).
  rewrite Hjson. cbn [bind]. now rewrite (from_dict_to_dict s Hfl).
Qed.

End NaNRoundTrip.

Lemma nan_field_defeats_round_trip_equality_witness :
  save_system_to_json MemFS.write (fun _ _ => "{...}")
    (Sys (mkSystem (PyFloat S754_nan) (PyFloat Float64.zero)
                   (PyFloat Float64.zero)))
    (PyStr "nan.json") ∅ =
    (Ok tt, <["nan.json" := MemFS.File "{...}"]> ∅)
  /\ load_system_from_json MemFS.read
       (fun _ => Ok (to_dict (mkSystem (PyFloat S754_nan) (PyFloat Float64.zero)
                                       (PyFloat Float64.zero))))
       (PyStr "nan.json") (<["nan.json" := MemFS.File "{...}"]> ∅) =
     (Ok (mkSystem (PyFloat S754_nan) (PyFloat Float64.zero)
                   (PyFloat Float64.zero)),
      <["nan.json" := MemFS.File "{...}"]> ∅)
  /\ __eq__ (mkSystem (PyFloat S754_nan) (PyFloat Float64.zero) (PyFloat Float64.zero))
       (Sys (mkSystem (PyFloat S754_nan) (PyFloat Float64.zero)
                      (PyFloat Float64.zero))) = false.
Proof.
  apply (nan_field_defeats_round_trip_equality MemFS.t MemFS.read MemFS.write
           (fun _ _ => "{...}")
           (fun _ => Ok (to_dict (mkSystem (PyFloat S754_nan) (PyFloat Float64.zero)
                                           (PyFloat Float64.zero))))
           (mkSystem (PyFloat S754_nan) (PyFloat Float64.zero) (PyFloat Float64.zero))
           "nan.json" ∅).
  - reflexivity.
  - reflexivity.
  - reflexivity.
  - vm_compute. reflexivity.
  - vm_compute. reflexivity.
Defined.
